(** * pyadmitad.transport: OAuth2 grants and the fluent HTTP transport

    A shallow embedding of [pyadmitad/transport.py].  Python values that
    flow through the module are strings or [None]; dictionaries are finite
    maps; every function that can raise returns an [Outcome]; methods run in
    a state monad over the pair (instance, world), where the world records
    the HTTP requests issued through [requests.request]. *)

From Stdlib Require Import ZArith Ascii.
From stdpp Require Import base strings list gmap.

Local Open Scope Z_scope.

(** ** Python values *)

(** The dynamically typed values the module handles: [None] and [str]. *)
Inductive value :=
  | VNone
  | VStr (s : string).

Global Instance value_eq_dec : EqDecision value.
Proof. solve_decision. Defined.

(** Python truthiness: [None] and the empty string are falsy. *)
Definition truthy (v : value) : bool :=
  match v with
  | VNone => false
  | VStr s => negb (String.eqb s "")
  end.

(** [a or b] *)
Definition py_or (a b : value) : value := if truthy a then a else b.

(** [str(v)] *)
Definition py_str (v : value) : string :=
  match v with
  | VNone => "None"
  | VStr s => s
  end.

(** Parsed JSON, as [response.json()] returns it. *)
#[local] Set Warnings "-register-all".
Inductive json :=
  | JNull
  | JBool (b : bool)
  | JInt (z : Z)
  | JFloat (lexeme : string)
  | JStr (s : string)
  | JArr (items : list json)
  | JObj (members : list (string * json)).

(** ** Exceptions *)

(** The classes of [requests.exceptions] the module can meet;
    all of them derive from [requests.RequestException].  The last one is
    [requests.exceptions.JSONDecodeError], which [response.json()] raises
    from requests 2.27 on. *)
Inductive requests_class :=
  | RequestException
  | HTTPError
  | ConnectionError
  | Timeout
  | TooManyRedirects
  | RequestsJSONDecodeError.

(** An exception raised inside the [try] block of [api_request]. *)
Inductive lib_error :=
  | RequestsError (cls : requests_class) (msg : string)
  | JSONDecodeError (msg : string).

(** What [response.json()] raises on a body that does not parse: the
    decoder's own [simplejson.JSONDecodeError] (requests before 2.27), or
    [requests.exceptions.JSONDecodeError] (requests 2.27 and later), which
    is a [requests.RequestException] too. *)
Inductive json_failure :=
  | DecoderError (msg : string)
  | RequestsDecodeError (msg : string).

(** The exception a failing [response.json()] raises. *)
Definition raised_by_json (failure : json_failure) : lib_error :=
  match failure with
  | DecoderError msg => JSONDecodeError msg
  | RequestsDecodeError msg => RequestsError RequestsJSONDecodeError msg
  end.

(** Exceptions that leave the module.  The first four are the classes of
    [pyadmitad.exceptions], built with the arguments the source passes;
    the others are Python built-ins. *)
Inductive exception :=
  | HttpException (status : Z) (content : json) (err : lib_error)
  | ConnectionException (err : lib_error)
  | JsonException (err : lib_error)
  | ApiException (msg : string)
  | AttributeError (msg : string)
  | KeyError (key : string)
  | ValueError (msg : string)
  | TypeError (msg : string).

(** The result of running a piece of the module: a value, an exception, or
    [OutOfModel] when the run leaves the fragment of Python that is
    modelled (only the format operator can do that, see [py_format]). *)
Inductive Outcome (A : Type) :=
  | Return (a : A)
  | Raise (e : exception)
  | OutOfModel.
Arguments Return {A} a.
Arguments Raise {A} e.
Arguments OutOfModel {A}.

(** ** State and error monad *)

Definition M (S A : Type) : Type := S -> Outcome A * S.

Definition ret {S A} (a : A) : M S A := fun s => (Return a, s).
Definition raise {S A} (e : exception) : M S A := fun s => (Raise e, s).
Definition bind {S A B} (m : M S A) (k : A -> M S B) : M S B :=
  fun s =>
    match m s with
    | (Return a, s') => k a s'
    | (Raise e, s') => (Raise e, s')
    | (OutOfModel, s') => (OutOfModel, s')
    end.
Definition lift {S A} (o : Outcome A) : M S A := fun s => (o, s).

Declare Scope py_scope.
Delimit Scope py_scope with py.
Notation "x <- m ;; k" := (bind m (fun x => k))
  (at level 100, m at next level, right associativity) : py_scope.
Notation "m ;;; k" := (bind m (fun _ => k))
  (at level 100, right associativity) : py_scope.
Local Open Scope py_scope.

(** ** The format operator [template % mapping] *)

(** Where the scanner of the format operator stands: in literal text, just
    after a [%], inside the parentheses of a key (with the number of
    parentheses still open inside it and the key read so far), or after a
    key whose value has been looked up, waiting for the conversion. *)
Inductive fmt_state :=
  | Text
  | Percent
  | InKey (depth : nat) (key : string)
  | Conv (v : string).

Definition prepend (pre : string) (o : Outcome string) : Outcome string :=
  match o with
  | Return out => Return (pre +:+ out)
  | Raise e => Raise e
  | OutOfModel => OutOfModel
  end.

(** [fmt % mapping] for a [str] template and a [dict] of [str] values,
    scanned left to right as CPython does.  Modelled: literal text, [%%]
    and [%(key)s], and the errors Python reports for a missing key
    ([KeyError], raised as soon as the key is closed), an unterminated key
    and a template that ends inside a directive.  Every other directive
    (flags, widths, other conversions, directives without a key) is
    [OutOfModel]. *)
Fixpoint py_format_from (st : fmt_state) (fmt : string)
    (mapping : gmap string string) : Outcome string :=
  match fmt with
  | EmptyString =>
      match st with
      | Text => Return EmptyString
      | InKey _ _ => Raise (ValueError "incomplete format key")
      | Percent | Conv _ => Raise (ValueError "incomplete format")
      end
  | String c rest =>
      match st with
      | Text =>
          if Ascii.eqb c "%" then py_format_from Percent rest mapping
          else prepend (String c EmptyString) (py_format_from Text rest mapping)
      | Percent =>
          if Ascii.eqb c "%" then prepend "%" (py_format_from Text rest mapping)
          else if Ascii.eqb c "(" then py_format_from (InKey 0 EmptyString) rest mapping
          else OutOfModel
      | InKey depth key =>
          if Ascii.eqb c ")" then
            match depth with
            | O =>
                match mapping !! key with
                | None => Raise (KeyError key)
                | Some v => py_format_from (Conv v) rest mapping
                end
            | S d => py_format_from (InKey d (key +:+ String c EmptyString)) rest mapping
            end
          else
            py_format_from
              (InKey (if Ascii.eqb c "(" then S depth else depth)
                     (key +:+ String c EmptyString))
              rest mapping
      | Conv v =>
          if Ascii.eqb c "s" then prepend v (py_format_from Text rest mapping)
          else OutOfModel
      end
  end.

Definition py_format (fmt : string) (mapping : gmap string string) : Outcome string :=
  py_format_from Text fmt mapping.

(** ** Constants of [pyadmitad.constants] *)

(** The module takes these from [from pyadmitad.constants import *]; their
    values are not fixed here. *)
Class Constants := {
  DEFAULT_LANGUAGE : string;
  DEFAULT_REQUEST_TIMEOUT : Z;
  TOKEN_URL : string;
  AUTHORIZE_URL : string;
}.

(** ** URL helper *)

(** [def prepare_api_url(url, language=DEFAULT_LANGUAGE):
        return url % {'language': language or DEFAULT_LANGUAGE}] *)
Definition prepare_api_url `{Constants} (url : string) (language : value)
  : Outcome string :=
  py_format url {[ "language" := py_str (py_or language (VStr DEFAULT_LANGUAGE)) ]}.

(** The call [prepare_api_url(url)], the [language] argument left out. *)
Definition prepare_api_url_default `{Constants} (url : string) : Outcome string :=
  prepare_api_url url (VStr DEFAULT_LANGUAGE).

(** *** Templates, for stating what [prepare_api_url] returns *)

(** A template cut into literal text and ["%(language)s"] placeholders. *)
Inductive piece :=
  | Lit (text : string)
  | Lang.

Definition placeholder : string := "%(language)s".

Definition render_piece (p : piece) : string :=
  match p with
  | Lit text => text
  | Lang => placeholder
  end.

(** The template as the string passed to [prepare_api_url]. *)
Definition render (ps : list piece) : string :=
  foldr (fun p acc => render_piece p +:+ acc) EmptyString ps.

(** The template with each placeholder replaced by [lang]. *)
Definition subst_language (lang : string) (ps : list piece) : string :=
  foldr (fun p acc => match p with Lit text => text | Lang => lang end +:+ acc)
        EmptyString ps.

Fixpoint percent_free (s : string) : bool :=
  match s with
  | EmptyString => true
  | String c rest => negb (Ascii.eqb c "%") && percent_free rest
  end.

(** Literal text holds no [%] of its own. *)
Definition plain (p : piece) : bool :=
  match p with
  | Lit text => percent_free text
  | Lang => true
  end.

(** [needle in haystack] on strings. *)
Fixpoint py_substring (needle haystack : string) : bool :=
  String.prefix needle haystack ||
  match haystack with
  | EmptyString => false
  | String _ rest => py_substring needle rest
  end.

(** ** The world: HTTP through [requests] *)

(** Keyword arguments built by [prepare_request_data].  ['data'] and
    ['params'] are keys that may be missing ([None] here) or present with a
    value that may itself be Python's [None]. *)
Record Kwargs := {
  kw_timeout : Z;
  kw_data : option (option (gmap string value));
  kw_params : option (option (gmap string value));
  kw_headers : gmap string string;
  kw_allow_redirects : bool;
  kw_verify : bool;
}.

(** One call [requests.request(method, url, **kwargs)]. *)
Record Request := {
  req_method : string;
  req_url : string;
  req_kwargs : Kwargs;
}.

(** What the module reads of a [requests.Response]: [status_code],
    [reason], and what [json()] gives: the parsed body, or the exception it
    raises on a body that does not parse. *)
Record Response := {
  status_code : Z;
  reason : string;
  json_body : json + json_failure;
}.

(** The world: how the network answers a request, given the requests issued
    before it (a response, or a [requests] exception raised by
    [requests.request]); the requests issued so far, oldest first; and the
    values [uuid.uuid4().get_hex()] hands out, with the number drawn. *)
Record World := {
  network : list Request -> Request -> Response + requests_class * string;
  sent : list Request;
  uuid4_hex : nat -> string;
  uuid4_drawn : nat;
}.

Definition log_request (r : Request) (w : World) : World :=
  {| network := network w; sent := sent w ++ [r];
     uuid4_hex := uuid4_hex w; uuid4_drawn := uuid4_drawn w |}.

(** [requests.request(method, url, **kwargs)] *)
Definition requests_request (method url : string) (kwargs : Kwargs)
  : World -> (Response + requests_class * string) * World :=
  fun w =>
    let r := {| req_method := method; req_url := url; req_kwargs := kwargs |} in
    (network w (sent w) r, log_request r w).

(** [response.raise_for_status()] of [requests]: raises [HTTPError] for the
    client and server error codes, 400 to 599, and returns for every other
    code.  The message [requests] composes is kept as the reason phrase. *)
Definition raise_for_status (response : Response) : option lib_error :=
  if (400 <=? status_code response) && (status_code response <? 600)
  then Some (RequestsError HTTPError (reason response))
  else None.

(** [uuid.uuid4().get_hex()] *)
Definition uuid4_get_hex : M World string :=
  fun w =>
    (Return (uuid4_hex w (uuid4_drawn w)),
     {| network := network w; sent := sent w;
        uuid4_hex := uuid4_hex w; uuid4_drawn := S (uuid4_drawn w) |}).

(** ** The HTTP executor *)

(** [prepare_request_data(data, headers, method, timeout, ssl_verify)] *)
Definition prepare_request_data `{Constants}
    (data : option (gmap string value)) (headers : option (gmap string string))
    (method : string) (timeout : option Z) (ssl_verify : bool) : Kwargs :=
  let headers := match headers with None => ∅ | Some h => h end in
  let timeout := match timeout with None => DEFAULT_REQUEST_TIMEOUT | Some t => t end in
  {| kw_timeout := timeout;
     kw_data := if String.eqb method "POST" then Some data else None;
     kw_params := if String.eqb method "GET" then Some data else None;
     kw_headers := headers;
     kw_allow_redirects := true;
     kw_verify := ssl_verify |}.

(** The [except] clauses of [api_request], tried in the order written:
    [requests.HTTPError], then [requests.RequestException], then
    [simplejson.JSONDecodeError]. *)
Definition except_clauses (status : Z) (content : json) (err : lib_error) : exception :=
  match err with
  | RequestsError HTTPError _ => HttpException status content err
  | RequestsError _ _ => ConnectionException err
  | JSONDecodeError _ => JsonException err
  end.

(** [api_request(url, data, headers, method, timeout, ssl_verify)] *)
Definition api_request `{Constants} (url : string)
    (data : option (gmap string value)) (headers : option (gmap string string))
    (method : string) (timeout : option Z) (ssl_verify : bool) : M World json :=
  let kwargs := prepare_request_data data headers method timeout ssl_verify in
  let status_code0 := 500 in
  let content0 := JObj [] in
  fun w =>
    match requests_request method url kwargs w with
    | (inr (cls, msg), w') =>
        (Raise (except_clauses status_code0 content0 (RequestsError cls msg)), w')
    | (inl response, w') =>
        let status := status_code response in
        match json_body response with
        | inr failure =>
            (Raise (except_clauses status content0 (raised_by_json failure)), w')
        | inl content =>
            match raise_for_status response with
            | Some err => (Raise (except_clauses status content err), w')
            | None => (Return content, w')
            end
        end
    end.

(** [api_post_request(url, **kwargs)] with the keywords its callers pass. *)
Definition api_post_request `{Constants} (url : string)
    (data : option (gmap string value)) (headers : option (gmap string string))
  : M World json :=
  api_request url data headers "POST" None false.

(** [api_get_request(url, **kwargs)] *)
Definition api_get_request `{Constants} (url : string)
    (data : option (gmap string value)) (headers : option (gmap string string))
  : M World json :=
  api_request url data headers "GET" None false.

(** ** Headers *)

(** [build_authorization_headers(access_token)] *)
Definition build_authorization_headers (access_token : string) : gmap string string :=
  {[ "Authorization" := "Bearer " +:+ access_token ]}.

(** [build_headers(access_token, user_agent=None)] *)
Definition build_headers (access_token : string) (user_agent : value)
  : gmap string string :=
  let headers := build_authorization_headers access_token in
  let headers := <[ "Connection" := "Keep-Alive" ]> headers in
  if truthy user_agent then <[ "User-Agent" := py_str user_agent ]> headers
  else headers.

(** ** Library functions on URLs *)

(** The [urlparse] and [urllib] functions the module calls:
    [urlparse.urlparse(url).query], [urlparse.parse_qsl] and
    [urllib.urlencode].  [urlparse.urlparse] raises on a string it cannot
    split: [ValueError] for an unmatched bracket in the host. *)
Class UrlLib := {
  urlparse_query : string -> Outcome string;
  parse_qsl : string -> list (string * string);
  urlencode : gmap string value -> string;
}.

(** [dict(pairs)]: a later pair overrides an earlier one with its key. *)
Definition dict {V} (pairs : list (string * V)) : gmap string V :=
  foldl (fun m kv => <[ kv.1 := kv.2 ]> m) ∅ pairs.

(** [dict(urlparse.parse_qsl(urlparse.urlparse(url).query))] *)
Definition parse_url_params `{UrlLib} (url : string) : Outcome (gmap string string) :=
  match urlparse_query url with
  | Return query => Return (dict (parse_qsl query))
  | Raise e => Raise e
  | OutOfModel => OutOfModel
  end.

(** [d.get(key)] on a dictionary of strings. *)
Definition dict_get (d : gmap string string) (key : string) : value :=
  match d !! key with
  | Some s => VStr s
  | None => VNone
  end.

(** [d[key]]: [KeyError] when the key is missing. *)
Definition dict_item {S} (d : gmap string value) (key : string) : M S value :=
  match d !! key with
  | Some v => ret v
  | None => raise (KeyError key)
  end.

(** [d.get(key, default)] *)
Definition dict_get_default (d : gmap string value) (key : string) (default : value)
  : value :=
  match d !! key with
  | Some v => v
  | None => default
  end.

(** ** [base64.b64encode] *)

Definition b64_alphabet : string :=
  "ABCDEFGHIJKLMNOPQRSTUVWXYZabcdefghijklmnopqrstuvwxyz0123456789+/".

Definition b64_digit (n : N) : string :=
  match String.get (N.to_nat n) b64_alphabet with
  | Some c => String c EmptyString
  | None => EmptyString
  end.

Fixpoint b64encode_bytes (bytes : list N) : string :=
  match bytes with
  | [] => EmptyString
  | [a] =>
      let n := (a * 65536)%N in
      b64_digit (n / 262144) +:+ b64_digit (n / 4096 mod 64) +:+ "=="
  | [a; b] =>
      let n := (a * 65536 + b * 256)%N in
      b64_digit (n / 262144) +:+ b64_digit (n / 4096 mod 64)
        +:+ b64_digit (n / 64 mod 64) +:+ "="
  | a :: b :: c :: rest =>
      let n := (a * 65536 + b * 256 + c)%N in
      b64_digit (n / 262144) +:+ b64_digit (n / 4096 mod 64)
        +:+ b64_digit (n / 64 mod 64) +:+ b64_digit (n mod 64)
        +:+ b64encode_bytes rest
  end.

Definition b64encode (s : string) : string :=
  b64encode_bytes (N_of_ascii <$> String.list_ascii_of_string s).

(** ** OAuth2 grant functions *)

Definition form_content_type : string := "application/x-www-form-urlencoded".

(** The [headers] dictionary of the two grant functions. *)
Definition basic_headers (client_id client_secret : value) : gmap string string :=
  let credentials := b64encode (py_str client_id +:+ ":" +:+ py_str client_secret) in
  {[ "Content-Type" := form_content_type;
     "Authorization" := "Basic " +:+ credentials ]}.

(** [oauth_password_authorization(data)] *)
Definition oauth_password_authorization `{Constants} (data : gmap string value)
  : M World json :=
  client_id <- dict_item data "client_id" ;;
  client_secret <- dict_item data "client_secret" ;;
  let language := dict_get_default data "language" (VStr DEFAULT_LANGUAGE) in
  username <- dict_item data "username" ;;
  password <- dict_item data "password" ;;
  scope <- dict_item data "scopes" ;;
  let params : gmap string value :=
    {[ "grant_type" := VStr "password";
       "client_id" := client_id;
       "username" := username;
       "password" := password;
       "scope" := scope ]} in
  let headers := basic_headers client_id client_secret in
  url <- lift (prepare_api_url TOKEN_URL language) ;;
  api_post_request url (Some params) (Some headers).

(** [oauth_client_authorization(data)] *)
Definition oauth_client_authorization `{Constants} (data : gmap string value)
  : M World json :=
  client_id <- dict_item data "client_id" ;;
  client_secret <- dict_item data "client_secret" ;;
  let language := dict_get_default data "language" (VStr DEFAULT_LANGUAGE) in
  scope <- dict_item data "scopes" ;;
  let params : gmap string value :=
    {[ "grant_type" := VStr "client_credentials";
       "client_id" := client_id;
       "scope" := scope ]} in
  let headers := basic_headers client_id client_secret in
  url <- lift (prepare_api_url TOKEN_URL language) ;;
  api_post_request url (Some params) (Some headers).

(** ** Methods: state is the instance together with the world *)

(** [self] *)
Definition self_ {T} : M (T * World) T := fun s => (Return s.1, s).

(** An assignment to attributes of [self]. *)
Definition update_self {T} (f : T -> T) : M (T * World) unit :=
  fun s => (Return tt, (f s.1, s.2)).

(** A call of a module-level function from a method. *)
Definition in_world {T A} (m : M World A) : M (T * World) A :=
  fun s => let (o, w') := m s.2 in (o, (s.1, w')).

(** [key in j] for a parsed JSON value [j]: membership among the keys of an
    object, among the items of an array, as a substring of a string;
    [TypeError] for the values that are not iterable. *)
Definition py_in_json (key : string) (j : json) : Outcome bool :=
  match j with
  | JObj members => Return (existsb (fun kv => String.eqb kv.1 key) members)
  | JArr items =>
      Return (existsb (fun i => match i with JStr s => String.eqb s key | _ => false end)
                      items)
  | JStr s => Return (py_substring key s)
  | _ => Raise (TypeError "argument is not iterable")
  end.

(** ** [class OAuthServerAuthorisation] *)

Module OAuthServerAuthorisation.

Record t := {
  client_id : value;
  client_secret : value;
  scopes : value;
  redirect_uri : value;
  language : value;
  state : value;
}.

(** [__init__(self, data)] *)
Definition __init__ `{Constants} (data : gmap string value) : Outcome t :=
  match data !! "client_id", data !! "client_secret", data !! "scopes" with
  | None, _, _ => Raise (KeyError "client_id")
  | Some _, None, _ => Raise (KeyError "client_secret")
  | Some _, Some _, None => Raise (KeyError "scopes")
  | Some cid, Some secret, Some sc =>
      Return {| client_id := cid;
                client_secret := secret;
                scopes := sc;
                redirect_uri := dict_get_default data "redirect_uri" VNone;
                language := dict_get_default data "language" (VStr DEFAULT_LANGUAGE);
                state := VNone |}
  end.

Definition set_state (s : value) (self : t) : t :=
  {| client_id := client_id self; client_secret := client_secret self;
     scopes := scopes self; redirect_uri := redirect_uri self;
     language := language self; state := s |}.

(** [get_authorize_url(self)] *)
Definition get_authorize_url `{Constants} `{UrlLib} : M (t * World) string :=
  hex <- in_world uuid4_get_hex ;;
  update_self (set_state (VStr hex)) ;;;
  self <- self_ ;;
  let params : gmap string value :=
    {[ "client_id" := client_id self;
       "response_type" := VStr "code";
       "state" := state self;
       "scope" := scopes self;
       "redirect_uri" := redirect_uri self ]} in
  base <- lift (prepare_api_url AUTHORIZE_URL (language self)) ;;
  ret (base +:+ "?" +:+ urlencode params).

(** [get_access_token(self, url)] *)
Definition get_access_token `{Constants} `{UrlLib} (url : string)
  : M (t * World) json :=
  self <- self_ ;;
  url_params <- lift (parse_url_params url) ;;
  let state_ := dict_get url_params "state" in
  if negb (truthy state_) || negb (bool_decide (state_ = state self)) then
    raise (ApiException "Wrong or absent the state parameter.")
  else
    match url_params !! "error" with
    | Some err => raise (ApiException err)
    | None =>
        match url_params !! "code" with
        | None => raise (ApiException "Invalid response. The authorization code is absent.")
        | Some code =>
            let params : gmap string value :=
              {[ "grant_type" := VStr "authorization_code";
                 "client_id" := client_id self;
                 "client_secret" := client_secret self;
                 "code" := VStr code;
                 "redirect_uri" := redirect_uri self ]} in
            let headers : gmap string string :=
              {[ "Content-Type" := form_content_type ]} in
            token_url <- lift (prepare_api_url TOKEN_URL (language self)) ;;
            response <- in_world (api_post_request token_url (Some params) (Some headers)) ;;
            present <- lift (py_in_json "access_token" response) ;;
            if negb present then
              raise (ApiException "Invalid response. The access_token is absent.")
            else ret response
        end
    end.

End OAuthServerAuthorisation.

(** ** [class HttpTransport] *)

Module HttpTransport.

Record t := {
  _headers : gmap string string;
  _method : string;
  _data : option (gmap string value);
  _url : value;
  _language : value;
}.

(** [self._supported_methods] and [self._supported_languages]: set by
    [__init__] and assigned nowhere else. *)
Definition _supported_methods : list string := ["GET"; "POST"].
Definition _supported_languages : list string := ["ru"; "en"; "de"; "pl"].

(** [v in names] for a tuple of strings. *)
Definition py_in (v : value) (names : list string) : bool :=
  match v with
  | VStr s => existsb (String.eqb s) names
  | VNone => false
  end.

Definition dquote : string := String "034"%char EmptyString.

(** [__init__(self, access_token, method=None, user_agent=None)] *)
Definition __init__ (access_token : string) (method user_agent : value) : t :=
  {| _headers := build_headers access_token user_agent;
     _method := py_str (py_or method (VStr "GET"));
     _data := None;
     _url := VNone;
     _language := VNone |}.

Definition with_language (l : value) (self : t) : t :=
  {| _headers := _headers self; _method := _method self; _data := _data self;
     _url := _url self; _language := l |}.
Definition with_url (u : value) (self : t) : t :=
  {| _headers := _headers self; _method := _method self; _data := _data self;
     _url := u; _language := _language self |}.
Definition with_data (d : option (gmap string value)) (self : t) : t :=
  {| _headers := _headers self; _method := _method self; _data := d;
     _url := _url self; _language := _language self |}.
Definition with_method (m : string) (self : t) : t :=
  {| _headers := _headers self; _method := m; _data := _data self;
     _url := _url self; _language := _language self |}.

(** [set_language(self, language)] *)
Definition set_language (language : value) : M (t * World) t :=
  if py_in language _supported_languages then
    update_self (with_language language) ;;; self_
  else
    raise (AttributeError
             ("This language " +:+ dquote +:+ py_str language +:+ dquote
                +:+ " is not supported")).

(** [set_url(self, url, language=None)] *)
Definition set_url `{Constants} (url : string) (language : value) : M (t * World) t :=
  (if truthy language then set_language language ;;; ret tt else ret tt) ;;;
  prepared <- lift (prepare_api_url url language) ;;
  update_self (with_url (VStr prepared)) ;;;
  self_.

(** [set_data(self, data)] *)
Definition set_data (data : option (gmap string value)) : M (t * World) t :=
  update_self (with_data data) ;;; self_.

(** [set_method(self, method)] *)
Definition set_method (method : value) : M (t * World) t :=
  if py_in method _supported_methods then
    update_self (with_method (py_str method)) ;;; self_
  else
    raise (AttributeError
             ("This http method " +:+ dquote +:+ py_str method +:+ dquote
                +:+ " is not supported")).

(** [_handle_response(self, response)] *)
Definition _handle_response (response : json) : M (t * World) json := ret response.

(** [__getattr__(self, name)] *)
Definition __getattr__ (name : string) : M (t * World) t := set_method (VStr name).

(** [api_request(self, url, **kwargs)], with the keywords [__call__] passes. *)
Definition api_request_ `{Constants} (url method : string)
    (headers : gmap string string) (data : option (gmap string value))
  : M (t * World) json :=
  in_world (api_request url data (Some headers) method None false).

(** The keyword arguments [__call__] looks at. *)
Record CallKwargs := {
  kw_language : option value;
  kw_url : option string;
  kw_handler : option (json -> Outcome json);
}.

(** [__call__(self, **kwargs)] *)
Definition __call__ `{Constants} (kwargs : CallKwargs) : M (t * World) json :=
  match kw_language kwargs with
  | Some l => set_language l ;;; ret tt
  | None => ret tt
  end ;;;
  match kw_url kwargs with
  | Some u => self <- self_ ;; set_url u (_language self) ;;; ret tt
  | None => ret tt
  end ;;;
  self <- self_ ;;
  if negb (truthy (_url self)) then
    raise (AttributeError "Absent url parameter. Use set_url method")
  else
    response <- api_request_ (py_str (_url self)) (_method self)
                  (_headers self) (_data self) ;;
    match kw_handler kwargs with
    | Some handler => lift (handler response)
    | None => _handle_response response
    end.

End HttpTransport.

(** ** Sample configuration, for the examples *)

Definition sample_constants : Constants :=
  {| DEFAULT_LANGUAGE := "ru";
     DEFAULT_REQUEST_TIMEOUT := 60;
     TOKEN_URL := "https://api.admitad.com/%(language)s/token/";
     AUTHORIZE_URL := "https://api.admitad.com/%(language)s/authorize/" |}.

(** The text before the first [c]. *)
Fixpoint before_char (c : ascii) (s : string) : string :=
  match s with
  | EmptyString => EmptyString
  | String a rest => if Ascii.eqb a c then EmptyString else String a (before_char c rest)
  end.

(** The text after the first [c], when there is one. *)
Fixpoint after_char (c : ascii) (s : string) : option string :=
  match s with
  | EmptyString => None
  | String a rest => if Ascii.eqb a c then Some rest else after_char c rest
  end.

(** The fields of a query string, cut at [&] and [;]. *)
Fixpoint query_fields (qs : string) : list string :=
  match qs with
  | EmptyString => [EmptyString]
  | String a rest =>
      if Ascii.eqb a "&" || Ascii.eqb a ";" then EmptyString :: query_fields rest
      else
        match query_fields rest with
        | field :: fields => String a field :: fields
        | [] => [String a EmptyString]
        end
  end.

(** Whether [c] occurs in [s]. *)
Definition has_char (c : ascii) (s : string) : bool :=
  match after_char c s with
  | Some _ => true
  | None => false
  end.

(** Whether [s] is made of characters of [chars] only. *)
Fixpoint all_chars_in (chars s : string) : bool :=
  match s with
  | EmptyString => true
  | String a rest => has_char a chars && all_chars_in chars rest
  end.

Definition scheme_chars : string :=
  "abcdefghijklmnopqrstuvwxyzABCDEFGHIJKLMNOPQRSTUVWXYZ0123456789+-.".

(** [urlsplit], first step: the text after the scheme and its colon, when
    the text before the first colon is a scheme (and what follows is not a
    port number); the whole text otherwise. *)
Definition after_scheme (url : string) : string :=
  match after_char ":" url with
  | Some rest =>
      let scheme := before_char ":" url in
      if String.eqb scheme "" then url
      else if String.eqb scheme "http" then rest
      else if all_chars_in scheme_chars scheme
              && (String.eqb rest "" || negb (all_chars_in "0123456789" rest))
      then rest
      else url
  | None => url
  end.

(** The text before the first of [/], [?] and [#]. *)
Fixpoint netloc_of (s : string) : string :=
  match s with
  | EmptyString => EmptyString
  | String a rest =>
      if Ascii.eqb a "/" || Ascii.eqb a "?" || Ascii.eqb a "#" then EmptyString
      else String a (netloc_of rest)
  end.

(** [urlsplit], second step: after [//] comes the host part, up to the
    first of [/], [?] and [#]; a bracket without its partner in it is the
    [ValueError] of [urlsplit]. *)
Definition bad_netloc (url : string) : bool :=
  match after_scheme url with
  | String "/" (String "/" rest) =>
      let netloc := netloc_of rest in
      (has_char "[" netloc && negb (has_char "]" netloc))
      || (has_char "]" netloc && negb (has_char "[" netloc))
  | _ => false
  end.

(** The query of a URL and its name-value pairs as Python 2.7's [urlparse]
    gives them on URLs without [+] and [%] escapes: [ValueError] for an
    unmatched bracket in the host; otherwise the query runs from the first
    [?] to the first [#]; a field without [=] or with an empty value is
    dropped. *)
Definition plain_urllib : UrlLib :=
  {| urlparse_query url :=
       if bad_netloc url then Raise (ValueError "Invalid IPv6 URL")
       else
         match after_char "?" (before_char "#" url) with
         | Some q => Return q
         | None => Return EmptyString
         end;
     parse_qsl qs :=
       omap (fun field =>
               match after_char "=" field with
               | Some v => if String.eqb v "" then None
                           else Some (before_char "=" field, v)
               | None => None
               end)
            (query_fields qs);
     urlencode params :=
       String.concat "&"
         ((fun kv => kv.1 +:+ "=" +:+ py_str kv.2) <$> map_to_list params) |}.

(** A world whose network answers every request with [answer]. *)
Definition world_answering (answer : Response + requests_class * string) : World :=
  {| network := fun _ _ => answer;
     sent := [];
     uuid4_hex := fun _ => "9f1c2d3e4b5a69788796a5b4c3d2e1f0";
     uuid4_drawn := 0 |}.

Definition ok_response (body : json) : Response :=
  {| status_code := 200; reason := "OK"; json_body := inl body |}.

(** A template of the resource layer: [announcements.py] builds its
    [SINGLE_URL] around a second directive, [%(id)s]. *)
Definition single_url_template : string :=
  "https://api.admitad.com/%(language)s/announcements/%(id)s/".

Definition announcements_url : string := "https://api.admitad.com/announcements/".

(** A transport as [HttpTransport('token')] builds it. *)
Definition fresh_transport : HttpTransport.t :=
  HttpTransport.__init__ "token" VNone VNone.

Definition quiet_world : World := world_answering (inl (ok_response (JArr []))).

Definition no_kwargs : HttpTransport.CallKwargs :=
  {| HttpTransport.kw_language := None;
     HttpTransport.kw_url := None;
     HttpTransport.kw_handler := None |}.

Definition not_found_body : json := JObj [("detail", JStr "not found")].

Definition multiple_choices : Response :=
  {| status_code := 300; reason := "Multiple Choices"; json_body := inl not_found_body |}.

Definition not_found : Response :=
  {| status_code := 404; reason := "Not Found"; json_body := inl not_found_body |}.

Definition not_json : Response :=
  {| status_code := 200; reason := "OK";
     json_body := inr (DecoderError "No JSON object could be decoded") |}.

(** The same exchange under requests 2.27 or later. *)
Definition not_json_requests : Response :=
  {| status_code := 200; reason := "OK";
     json_body := inr (RequestsDecodeError "Expecting value") |}.

Definition sample_data : gmap string value :=
  {[ "client_id" := VStr "cid";
     "client_secret" := VStr "secret";
     "scopes" := VStr "announcements";
     "redirect_uri" := VStr "https://shop.example/cb";
     "language" := VStr "en" ]}.

(** The instance [OAuthServerAuthorisation(sample_data)]. *)
Definition unstarted_flow : OAuthServerAuthorisation.t :=
  {| OAuthServerAuthorisation.client_id := VStr "cid";
     OAuthServerAuthorisation.client_secret := VStr "secret";
     OAuthServerAuthorisation.scopes := VStr "announcements";
     OAuthServerAuthorisation.redirect_uri := VStr "https://shop.example/cb";
     OAuthServerAuthorisation.language := VStr "en";
     OAuthServerAuthorisation.state := VNone |}.

Definition token_body : json := JObj [("access_token", JStr "tok")].

Definition token_world : World := world_answering (inl (ok_response token_body)).

(** The instance and the world after [get_authorize_url()]. *)
Definition started_flow : OAuthServerAuthorisation.t * World :=
  (OAuthServerAuthorisation.get_authorize_url
     (H := sample_constants) (H0 := plain_urllib)
     (unstarted_flow, token_world)).2.

(** ** Stating what the executor does *)

(** The request [api_request] hands to [requests.request]. *)
Definition request_of `{Constants} (url : string)
    (data : option (gmap string value)) (headers : option (gmap string string))
    (method : string) (timeout : option Z) (ssl_verify : bool) : Request :=
  {| req_method := method; req_url := url;
     req_kwargs := prepare_request_data data headers method timeout ssl_verify |}.

(** ** Stating what the rest of the module does *)

(** The first of [keys] that [data] lacks: the key of the first [data[key]]
    that raises, when the keys are read in this order. *)
Definition first_missing (data : gmap string value) (keys : list string)
  : option string :=
  List.find (fun key => match data !! key with None => true | Some _ => false end)
            keys.

(** A key that closes at its first [)]: it holds no parenthesis. *)
Fixpoint paren_free (s : string) : bool :=
  match s with
  | EmptyString => true
  | String c rest => negb (Ascii.eqb c "(") && negb (Ascii.eqb c ")") && paren_free rest
  end.

(** The stored language of a transport is [None] or a supported one. *)
Definition language_ok (self : HttpTransport.t) : Prop :=
  HttpTransport._language self = VNone
  \/ exists L, HttpTransport._language self = VStr L
               /\ In L HttpTransport._supported_languages.

(** The stored method of a transport is a supported one. *)
Definition method_ok (self : HttpTransport.t) : Prop :=
  In (HttpTransport._method self) HttpTransport._supported_methods.

(** A method keeps the property [P] of the instance, whether it returns or
    raises. *)
Definition keeps (P : HttpTransport.t -> Prop) {A}
    (m : M (HttpTransport.t * World) A) : Prop :=
  forall s, P s.1 -> P (m s).2.1.

(** The parameters of the redirect URL that echoes the state of
    [started_flow] with the code [abc]. *)
Definition good_redirect_params : gmap string string :=
  dict [("state", "9f1c2d3e4b5a69788796a5b4c3d2e1f0"); ("code", "abc")].

(** A world whose first uuid differs from the later ones. *)
Definition two_uuid_world : World :=
  {| network := fun _ _ => inl (ok_response (JArr []));
     sent := [];
     uuid4_hex := fun n => if Nat.eqb n 0 then "aaaa" else "bbbb";
     uuid4_drawn := 0 |}.

(** The world after one more [uuid.uuid4()]. *)
Definition draw_uuid (w : World) : World :=
  {| network := network w; sent := sent w;
     uuid4_hex := uuid4_hex w; uuid4_drawn := S (uuid4_drawn w) |}.

(** * Properties *)

Ltac run_monad :=
  unfold bind, ret, raise, lift, self_, update_self, in_world; simpl.

(** ** The format operator and [prepare_api_url] *)

Lemma append_cons (c : ascii) (a b : string) :
  String c a +:+ b = String c (a +:+ b).
Proof. reflexivity. Qed.

Lemma append_empty (b : string) : EmptyString +:+ b = b.
Proof. reflexivity. Qed.

Lemma append_assoc (a b c : string) : a +:+ b +:+ c = (a +:+ b) +:+ c.
Proof.
  induction a as [|x a IH]; [reflexivity|].
  by rewrite !append_cons, IH.
Qed.

Lemma prepend_prepend (a b : string) (o : Outcome string) :
  prepend a (prepend b o) = prepend (a +:+ b) o.
Proof. destruct o as [out| |]; simpl; by rewrite ?append_assoc. Qed.

Lemma prepend_empty (o : Outcome string) : prepend EmptyString o = o.
Proof. by destruct o. Qed.

(** Text without [%] is copied. *)
Lemma py_format_text (text rest : string) (mapping : gmap string string) :
  percent_free text = true ->
  py_format_from Text (text +:+ rest) mapping
  = prepend text (py_format_from Text rest mapping).
Proof.
  induction text as [|c text IH]; intros Hfree.
  - by rewrite append_empty, prepend_empty.
  - simpl in Hfree. apply andb_prop in Hfree as [Hc Hfree].
    apply negb_true_iff in Hc. rewrite append_cons. simpl.
    rewrite Hc, IH by done.
    by rewrite prepend_prepend.
Qed.

(** A placeholder is replaced by the value stored under ["language"]. *)
Lemma py_format_placeholder (rest lang : string) (mapping : gmap string string) :
  mapping !! "language" = Some lang ->
  py_format_from Text (placeholder +:+ rest) mapping
  = prepend lang (py_format_from Text rest mapping).
Proof.
  intros Hlang. unfold placeholder.
  rewrite !append_cons, append_empty. simpl.
  cbv [String.append]. by rewrite Hlang.
Qed.

Lemma py_format_template (ps : list piece) (lang : string)
    (mapping : gmap string string) :
  mapping !! "language" = Some lang ->
  forallb plain ps = true ->
  py_format (render ps) mapping = Return (subst_language lang ps).
Proof.
  intros Hlang. unfold py_format.
  induction ps as [|p ps IH]; simpl; intros Hplain; [done|].
  apply andb_prop in Hplain as [Hp Hps].
  destruct p as [text|]; simpl in Hp; unfold render_piece.
  - rewrite py_format_text, IH by done. done.
  - rewrite (py_format_placeholder _ lang), IH by done. done.
Qed.

Lemma py_or_truthy (a b : value) : truthy a = true -> py_or a b = a.
Proof. unfold py_or. by intros ->. Qed.

Lemma py_or_falsy (a b : value) : truthy a = false -> py_or a b = b.
Proof. unfold py_or. by intros ->. Qed.

Lemma prepare_api_url_template `{Constants} (ps : list piece) (language : value) :
  forallb plain ps = true ->
  prepare_api_url (render ps) language
  = Return (subst_language
              (if truthy language then py_str language else DEFAULT_LANGUAGE) ps).
Proof.
  intros Hplain. unfold prepare_api_url.
  apply py_format_template; [|done].
  rewrite lookup_singleton_eq. f_equal.
  unfold py_or. by destruct (truthy language).
Qed.

(** C5, as stated, fails: a template can contain the ["%(language)s"]
    placeholder and still make [prepare_api_url] raise, here [KeyError] for
    the [%(id)s] directive, with the supported language ["en"]. *)
Lemma prepare_api_url_other_directive :
  py_substring placeholder single_url_template = true
  /\ In "en" HttpTransport._supported_languages
  /\ prepare_api_url (H := sample_constants) single_url_template (VStr "en")
     = Raise (KeyError "id")
  /\ ~ (exists out,
         prepare_api_url (H := sample_constants) single_url_template (VStr "en")
         = Return out).
Proof.
  assert (Hrun : prepare_api_url (H := sample_constants) single_url_template (VStr "en")
                 = Raise (KeyError "id")) by (vm_compute; reflexivity).
  split; [vm_compute; reflexivity|].
  split; [simpl; tauto|].
  split; [exact Hrun|].
  intros [out Hout]. rewrite Hrun in Hout. discriminate.
Qed.

(** C5 (amended).  For every template made of text without [%] and of
    ["%(language)s"] placeholders: with a supported language [L],
    [prepare_api_url] returns the template with every placeholder replaced
    by exactly [L]; with a falsy language, and with the argument left out,
    it returns the template with every placeholder replaced by
    [DEFAULT_LANGUAGE]. *)
Theorem prepare_api_url_substitutes `{Constants} (ps : list piece) :
  forallb plain ps = true ->
  (forall L, In L HttpTransport._supported_languages ->
     prepare_api_url (render ps) (VStr L) = Return (subst_language L ps))
  /\ (forall language, truthy language = false ->
        prepare_api_url (render ps) language
        = Return (subst_language DEFAULT_LANGUAGE ps))
  /\ prepare_api_url_default (render ps)
     = Return (subst_language DEFAULT_LANGUAGE ps).
Proof.
  intros Hplain. repeat split.
  - intros L HL. rewrite prepare_api_url_template by done.
    assert (HLt : truthy (VStr L) = true).
    { simpl in HL. by destruct HL as [<-|[<-|[<-|[<-|[]]]]]. }
    by rewrite HLt.
  - intros language Hfalsy. rewrite prepare_api_url_template by done.
    by rewrite Hfalsy.
  - unfold prepare_api_url_default. rewrite prepare_api_url_template by done.
    by destruct (truthy (VStr DEFAULT_LANGUAGE)).
Qed.

Lemma prepare_api_url_substitutes_witness :
  prepare_api_url (H := sample_constants)
    "https://api.admitad.com/%(language)s/token/" (VStr "en")
  = Return "https://api.admitad.com/en/token/".
Proof.
  apply (proj1 (prepare_api_url_substitutes (H := sample_constants)
                  [Lit "https://api.admitad.com/"; Lang; Lit "/token/"]
                  eq_refl) "en").
  simpl. tauto.
Defined.

(** ** [HttpTransport]: the setters *)

Section Setters.
Import HttpTransport.

Lemma py_in_spec (s : string) (names : list string) :
  py_in (VStr s) names = true <-> In s names.
Proof.
  unfold py_in. rewrite existsb_exists. split.
  - intros (x & Hx & Heq). apply String.eqb_eq in Heq. by subst.
  - intros Hin. exists s. split; [done | apply String.eqb_refl].
Qed.

Lemma py_in_false (s : string) (names : list string) :
  ~ In s names -> py_in (VStr s) names = false.
Proof.
  intros Hnot. destruct (py_in (VStr s) names) eqn:E; [|done].
  by apply py_in_spec in E.
Qed.

(** C2, as stated, fails: [set_method("PUT")] raises the built-in
    [AttributeError], which is not [ApiException]. *)
Lemma set_method_raises_attribute_error :
  ~ In "PUT" _supported_methods
  /\ (exists msg, set_method (VStr "PUT") (fresh_transport, quiet_world)
                  = (Raise (AttributeError msg), (fresh_transport, quiet_world)))
  /\ ~ (exists msg, (set_method (VStr "PUT") (fresh_transport, quiet_world)).1
                    = Raise (ApiException msg)).
Proof.
  split; [simpl; intros [?|[?|[]]]; discriminate|].
  split; [eexists; reflexivity|].
  intros [msg Hmsg]. discriminate Hmsg.
Qed.

(** C2 (amended).  For every string [m] outside {"GET", "POST"},
    [set_method(m)] raises [AttributeError] and leaves the instance, with
    its stored method, and the world as they were; for [m] in the set it
    stores [m] and returns the instance. *)
Theorem set_method_supported_only (m : string) (self : HttpTransport.t) (w : World) :
  (~ In m ["GET"; "POST"] ->
     exists msg, set_method (VStr m) (self, w)
                 = (Raise (AttributeError msg), (self, w)))
  /\ (In m ["GET"; "POST"] ->
        set_method (VStr m) (self, w)
        = (Return (with_method m self), (with_method m self, w))
        /\ _method (with_method m self) = m).
Proof.
  split; intros Hm; unfold set_method.
  - rewrite (py_in_false m _supported_methods Hm). eexists. reflexivity.
  - apply py_in_spec in Hm. unfold _supported_methods. rewrite Hm.
    split; reflexivity.
Qed.

Lemma set_method_supported_only_witness :
  (exists msg, set_method (VStr "DELETE") (fresh_transport, quiet_world)
               = (Raise (AttributeError msg), (fresh_transport, quiet_world)))
  /\ set_method (VStr "POST") (fresh_transport, quiet_world)
     = (Return (with_method "POST" fresh_transport),
        (with_method "POST" fresh_transport, quiet_world)).
Proof.
  split.
  - apply (proj1 (set_method_supported_only "DELETE" fresh_transport quiet_world)).
    simpl. intros [?|[?|[]]]; discriminate.
  - apply (proj2 (set_method_supported_only "POST" fresh_transport quiet_world)).
    simpl. tauto.
Defined.

(** C3, as stated, fails: [set_language("fr")] raises the built-in
    [AttributeError], which is not [ApiException]. *)
Lemma set_language_raises_attribute_error :
  ~ In "fr" _supported_languages
  /\ (exists msg, set_language (VStr "fr") (fresh_transport, quiet_world)
                  = (Raise (AttributeError msg), (fresh_transport, quiet_world)))
  /\ ~ (exists msg, (set_language (VStr "fr") (fresh_transport, quiet_world)).1
                    = Raise (ApiException msg)).
Proof.
  split; [simpl; intros [?|[?|[?|[?|[]]]]]; discriminate|].
  split; [eexists; reflexivity|].
  intros [msg Hmsg]. discriminate Hmsg.
Qed.

(** C3 (amended).  For every string [L] outside {"ru", "en", "de", "pl"},
    [set_language(L)] raises [AttributeError] (the instance is left as it
    was); for [L] in the set it stores [L] and returns the instance. *)
Theorem set_language_supported_only (L : string) (self : HttpTransport.t) (w : World) :
  (~ In L ["ru"; "en"; "de"; "pl"] ->
     exists msg, set_language (VStr L) (self, w)
                 = (Raise (AttributeError msg), (self, w)))
  /\ (In L ["ru"; "en"; "de"; "pl"] ->
        set_language (VStr L) (self, w)
        = (Return (with_language (VStr L) self), (with_language (VStr L) self, w))
        /\ _language (with_language (VStr L) self) = VStr L).
Proof.
  split; intros HL; unfold set_language.
  - rewrite (py_in_false L _supported_languages HL). eexists. reflexivity.
  - apply py_in_spec in HL. unfold _supported_languages. rewrite HL.
    split; reflexivity.
Qed.

Lemma set_language_supported_only_witness :
  (exists msg, set_language (VStr "fr") (fresh_transport, quiet_world)
               = (Raise (AttributeError msg), (fresh_transport, quiet_world)))
  /\ set_language (VStr "de") (fresh_transport, quiet_world)
     = (Return (with_language (VStr "de") fresh_transport),
        (with_language (VStr "de") fresh_transport, quiet_world)).
Proof.
  split.
  - apply (proj1 (set_language_supported_only "fr" fresh_transport quiet_world)).
    simpl. intros [?|[?|[?|[?|[]]]]]; discriminate.
  - apply (proj2 (set_language_supported_only "de" fresh_transport quiet_world)).
    simpl. tauto.
Defined.

End Setters.

(** ** [HttpTransport]: the call operation *)

Section Call.
Import HttpTransport.

(** C4, as stated, fails: the call without a URL raises the built-in
    [AttributeError], which is not [ApiException]. *)
Lemma call_without_url_raises_attribute_error :
  _url fresh_transport = VNone
  /\ kw_url no_kwargs = None
  /\ __call__ (H := sample_constants) no_kwargs (fresh_transport, quiet_world)
     = (Raise (AttributeError "Absent url parameter. Use set_url method"),
        (fresh_transport, quiet_world))
  /\ ~ (exists msg,
         (__call__ (H := sample_constants) no_kwargs (fresh_transport, quiet_world)).1
         = Raise (ApiException msg)).
Proof.
  split; [reflexivity|]. split; [reflexivity|]. split; [reflexivity|].
  intros [msg Hmsg]. discriminate Hmsg.
Qed.

(** C4 (amended).  Calling a transport that has no URL stored, with an
    option bag that supplies none, raises [AttributeError] and performs no
    HTTP request: the world is left as it was. *)
Theorem call_without_url `{Constants} (kwargs : CallKwargs) (self : HttpTransport.t) (w : World) :
  _url self = VNone ->
  kw_url kwargs = None ->
  exists msg self',
    __call__ kwargs (self, w) = (Raise (AttributeError msg), (self', w)).
Proof.
  intros Hurl Hkw. unfold __call__. rewrite Hkw.
  destruct (kw_language kwargs) as [l|].
  - unfold set_language. destruct (py_in l _supported_languages).
    + run_monad. rewrite Hurl. simpl. eauto.
    + run_monad. eauto.
  - run_monad. rewrite Hurl. simpl. eauto.
Qed.

Lemma call_without_url_witness :
  exists msg self',
    __call__ (H := sample_constants)
      {| kw_language := Some (VStr "en"); kw_url := None; kw_handler := None |}
      (fresh_transport, quiet_world)
    = (Raise (AttributeError msg), (self', quiet_world)).
Proof.
  apply (call_without_url (H := sample_constants)); reflexivity.
Defined.





End Call.

(** ** The HTTP executor *)

Lemma api_request_unfold `{Constants} (url : string)
    (data : option (gmap string value)) (headers : option (gmap string string))
    (method : string) (timeout : option Z) (ssl_verify : bool) (w : World) :
  api_request url data headers method timeout ssl_verify w
  = (match network w (sent w) (request_of url data headers method timeout ssl_verify) with
     | inr (cls, msg) =>
         Raise (except_clauses 500 (JObj []) (RequestsError cls msg))
     | inl response =>
         match json_body response with
         | inr failure =>
             Raise (except_clauses (status_code response) (JObj [])
                      (raised_by_json failure))
         | inl content =>
             match raise_for_status response with
             | Some err => Raise (except_clauses (status_code response) content err)
             | None => Return content
             end
         end
     end,
     log_request (request_of url data headers method timeout ssl_verify) w).
Proof.
  unfold api_request, requests_request, request_of.
  destruct (network w (sent w) _) as [response|[cls msg]]; [|reflexivity].
  destruct (json_body response) as [content|failure]; [|reflexivity].
  destruct (raise_for_status response); reflexivity.
Qed.

(** A body that does not parse: the [except] clauses see the exception of
    [json()], whatever the status. *)
Lemma api_request_unparsable_body `{Constants} (url : string)
    (data : option (gmap string value)) (headers : option (gmap string string))
    (method : string) (timeout : option Z) (ssl_verify : bool) (w : World)
    (response : Response) (failure : json_failure) :
  network w (sent w) (request_of url data headers method timeout ssl_verify)
  = inl response ->
  json_body response = inr failure ->
  api_request url data headers method timeout ssl_verify w
  = (Raise match failure with
           | DecoderError msg => JsonException (JSONDecodeError msg)
           | RequestsDecodeError msg =>
               ConnectionException (RequestsError RequestsJSONDecodeError msg)
           end,
     log_request (request_of url data headers method timeout ssl_verify) w).
Proof.
  intros Hnet Hbody. rewrite api_request_unfold, Hnet, Hbody. by destruct failure.
Qed.

(** C7, as stated, fails: status 300 lies outside 2xx, the body parses, and
    [api_request] returns the body instead of raising; [raise_for_status]
    raises for the codes 400 to 599 only. *)
Lemma api_request_redirection_status_returns :
  ~ (200 <= status_code multiple_choices < 300)
  /\ json_body multiple_choices = inl not_found_body
  /\ (api_request (H := sample_constants) announcements_url None None "GET" None false
        (world_answering (inl multiple_choices))).1
     = Return not_found_body
  /\ ~ (exists status content err,
         (api_request (H := sample_constants) announcements_url None None "GET" None
            false (world_answering (inl multiple_choices))).1
         = Raise (HttpException status content err)).
Proof.
  split; [simpl; lia|]. split; [reflexivity|]. split; [reflexivity|].
  intros (status & content & err & Hraise). discriminate Hraise.
Qed.

(** C7 (amended).  For every exchange that returns a status from 400 to 599
    with a body that parses, [api_request] raises [HttpException] carrying
    that status, the parsed body and the [HTTPError] that
    [raise_for_status] raised; one request has been issued.  The body is
    parsed before the status is looked at: with the same status and a body
    that does not parse, the exception is not [HttpException] but the one
    the [except] clauses make of the exception of [json()],
    [JsonException] or [ConnectionException]. *)
Theorem api_request_http_error `{Constants} (url : string)
    (data : option (gmap string value)) (headers : option (gmap string string))
    (method : string) (timeout : option Z) (ssl_verify : bool) (w : World)
    (response : Response) :
  network w (sent w) (request_of url data headers method timeout ssl_verify)
  = inl response ->
  400 <= status_code response < 600 ->
  (forall body, json_body response = inl body ->
     api_request url data headers method timeout ssl_verify w
     = (Raise (HttpException (status_code response) body
                 (RequestsError HTTPError (reason response))),
        log_request (request_of url data headers method timeout ssl_verify) w))
  /\ (forall failure, json_body response = inr failure ->
        exists e,
          api_request url data headers method timeout ssl_verify w
          = (Raise e,
             log_request (request_of url data headers method timeout ssl_verify) w)
          /\ (e = JsonException (raised_by_json failure)
              \/ e = ConnectionException (raised_by_json failure))
          /\ (forall status content err, e <> HttpException status content err)).
Proof.
  intros Hnet Hstatus.
  split.
  - rewrite api_request_unfold, Hnet.
    intros body ->. unfold raise_for_status.
    assert (Hrange : (400 <=? status_code response) && (status_code response <? 600) = true).
    { apply andb_true_intro. split; [apply Z.leb_le | apply Z.ltb_lt]; lia. }
    rewrite Hrange. reflexivity.
  - intros failure Hbody.
    rewrite (api_request_unparsable_body _ _ _ _ _ _ w response failure Hnet Hbody).
    destruct failure as [msg|msg]; eexists; (split; [reflexivity|]);
      (split; [auto | discriminate]).
Qed.

Lemma api_request_http_error_witness :
  api_request (H := sample_constants) announcements_url None None "GET" None false
    (world_answering (inl not_found))
  = (Raise (HttpException 404 not_found_body (RequestsError HTTPError "Not Found")),
     log_request
       (request_of (H := sample_constants) announcements_url None None "GET" None false)
       (world_answering (inl not_found))).
Proof.
  apply (proj1 (api_request_http_error (H := sample_constants) announcements_url
                  None None "GET" None false (world_answering (inl not_found))
                  not_found eq_refl ltac:(simpl; lia)) not_found_body).
  reflexivity.
Defined.

(** C8 (defect of the code).  An exchange with status 200 whose body does
    not parse, under requests 2.27 or later: [json()] raises
    [requests.exceptions.JSONDecodeError], a [RequestException], so the
    second [except] clause answers first and [api_request] raises
    [ConnectionException]; the third clause, which turns a decoding error
    into [JsonException], is not reached.  Where [json()] raises the
    decoder's own [simplejson.JSONDecodeError], the same exchange ends in
    [JsonException]. *)
Theorem api_request_requests_json_error :
  status_code not_json_requests = 200
  /\ json_body not_json_requests = inr (RequestsDecodeError "Expecting value")
  /\ api_request (H := sample_constants) announcements_url None None "GET" None false
       (world_answering (inl not_json_requests))
     = (Raise (ConnectionException
                 (RequestsError RequestsJSONDecodeError "Expecting value")),
        log_request
          (request_of (H := sample_constants) announcements_url None None "GET" None false)
          (world_answering (inl not_json_requests)))
  /\ api_request (H := sample_constants) announcements_url None None "GET" None false
       (world_answering (inl not_json))
     = (Raise (JsonException (JSONDecodeError "No JSON object could be decoded")),
        log_request
          (request_of (H := sample_constants) announcements_url None None "GET" None false)
          (world_answering (inl not_json))).
Proof. repeat split. Qed.

(** ** The authorization-code flow *)

Section Flow.
Import OAuthServerAuthorisation.

Example init_sample :
  __init__ (H := sample_constants) sample_data = Return unstarted_flow.
Proof. vm_compute. reflexivity. Qed.

Example started_flow_state :
  state started_flow.1 = VStr "9f1c2d3e4b5a69788796a5b4c3d2e1f0"
  /\ sent started_flow.2 = [].
Proof. vm_compute. split; reflexivity. Qed.

Example b64encode_vectors :
  b64encode "Man" = "TWFu" /\ b64encode "a:b" = "YTpi"
  /\ b64encode "cid:secret" = "Y2lkOnNlY3JldA==".
Proof. vm_compute. repeat split; reflexivity. Qed.

Example plain_urllib_pairs :
  urlparse_query (UrlLib := plain_urllib)
    "https://shop.example/cb?state=0000&code=abc#top"
  = Return "state=0000&code=abc"
  /\ parse_qsl (UrlLib := plain_urllib) "state=0000&code=abc"
     = [("state", "0000"); ("code", "abc")].
Proof. vm_compute. split; reflexivity. Qed.

Example plain_urllib_brackets :
  urlparse_query (UrlLib := plain_urllib) "http://[::1?code=y"
  = Raise (ValueError "Invalid IPv6 URL")
  /\ urlparse_query (UrlLib := plain_urllib) "http://[::1]:8080/cb?code=y"
     = Return "code=y".
Proof. vm_compute. split; reflexivity. Qed.

(** A new instance has no state stored. *)
Lemma init_state `{Constants} (data : gmap string value) (self : OAuthServerAuthorisation.t) :
  __init__ data = Return self -> state self = VNone.
Proof.
  unfold __init__. intros Hinit.
  destruct (data !! "client_id"), (data !! "client_secret"), (data !! "scopes");
    try discriminate.
  by injection Hinit as <-.
Qed.

(** The state check, the first statement that can raise once the URL is
    split. *)
Lemma get_access_token_rejects `{Constants} `{UrlLib} (url : string)
    (params : gmap string string)
    (self : OAuthServerAuthorisation.t) (w : World) :
  parse_url_params url = Return params ->
  negb (truthy (dict_get params "state"))
  || negb (bool_decide (dict_get params "state" = state self))
  = true ->
  get_access_token url (self, w)
  = (Raise (ApiException "Wrong or absent the state parameter."), (self, w)).
Proof.
  intros Hparse Hcheck. unfold get_access_token. run_monad.
  rewrite Hparse. by rewrite Hcheck.
Qed.

(** A URL that [urlparse] does not split: its exception is the outcome. *)
Lemma get_access_token_unsplit `{Constants} `{UrlLib} (url : string)
    (self : OAuthServerAuthorisation.t) (w : World) :
  (forall e, parse_url_params url = Raise e ->
             get_access_token url (self, w) = (Raise e, (self, w)))
  /\ (parse_url_params url = OutOfModel ->
      get_access_token url (self, w) = (OutOfModel, (self, w))).
Proof.
  split; [intros e Hparse | intros Hparse];
    unfold get_access_token; run_monad; by rewrite Hparse.
Qed.

(** C1, as stated, fails: the redirect URL [http://[::1?code=y] has a
    query string, [code=y], without a [state] parameter, and
    [get_access_token] ends with the [ValueError] of [urlparse], which
    cannot split a host with an unmatched bracket, not with
    [ApiException]. *)
Lemma get_access_token_unsplit_url_no_state :
  dict (parse_qsl (UrlLib := plain_urllib) "code=y") !! "state" = None
  /\ get_access_token (H := sample_constants) (H0 := plain_urllib)
       "http://[::1?code=y" (started_flow.1, started_flow.2)
     = (Raise (ValueError "Invalid IPv6 URL"), (started_flow.1, started_flow.2))
  /\ ~ (exists msg,
         (get_access_token (H := sample_constants) (H0 := plain_urllib)
            "http://[::1?code=y" (started_flow.1, started_flow.2)).1
         = Raise (ApiException msg)).
Proof.
  assert (Hrun : get_access_token (H := sample_constants) (H0 := plain_urllib)
                   "http://[::1?code=y" (started_flow.1, started_flow.2)
                 = (Raise (ValueError "Invalid IPv6 URL"),
                    (started_flow.1, started_flow.2))).
  { apply (proj1 (get_access_token_unsplit (H := sample_constants) (H0 := plain_urllib)
                    "http://[::1?code=y" started_flow.1 started_flow.2)).
    vm_compute. reflexivity. }
  split; [vm_compute; reflexivity|]. split; [exact Hrun|].
  rewrite Hrun. intros [msg Hmsg]. discriminate Hmsg.
Qed.

(** C1 (amended).  For every instance and every redirect URL that
    [urlparse] splits and whose parsed query has no [state] entry, or has
    one that differs from the state the instance stores,
    [get_access_token] raises [ApiException]; the instance and the world,
    with the list of requests sent, are left as they were. *)
Theorem get_access_token_checks_state `{Constants} `{UrlLib} (url : string)
    (params : gmap string string)
    (self : OAuthServerAuthorisation.t) (w : World) :
  parse_url_params url = Return params ->
  params !! "state" = None
  \/ (exists s, params !! "state" = Some s /\ VStr s <> state self) ->
  get_access_token url (self, w)
  = (Raise (ApiException "Wrong or absent the state parameter."), (self, w)).
Proof.
  intros Hparse Hstate. apply (get_access_token_rejects url params); [done|].
  unfold dict_get.
  destruct Hstate as [->|(s & -> & Hne)]; [reflexivity|].
  rewrite bool_decide_false by done. simpl. apply orb_true_r.
Qed.

Lemma get_access_token_checks_state_witness :
  get_access_token (H := sample_constants) (H0 := plain_urllib)
    "https://shop.example/cb?state=0000&code=abc" (started_flow.1, started_flow.2)
  = (Raise (ApiException "Wrong or absent the state parameter."),
     (started_flow.1, started_flow.2)).
Proof.
  apply (get_access_token_checks_state (H := sample_constants) (H0 := plain_urllib)
           "https://shop.example/cb?state=0000&code=abc"
           (dict [("state", "0000"); ("code", "abc")]));
    [vm_compute; reflexivity|].
  right. exists "0000". split; [vm_compute; reflexivity|].
  intros Heq. vm_compute in Heq. discriminate Heq.
Defined.

(** C10, as stated, fails: on an instance with no state stored, the URL
    [http://[::1?state=x&code=y] makes [get_access_token] end with the
    [ValueError] of [urlparse], not with [ApiException]. *)
Lemma get_access_token_unsplit_url_before_authorize :
  state unstarted_flow = VNone
  /\ get_access_token (H := sample_constants) (H0 := plain_urllib)
       "http://[::1?state=x&code=y" (unstarted_flow, token_world)
     = (Raise (ValueError "Invalid IPv6 URL"), (unstarted_flow, token_world))
  /\ ~ (exists msg,
         (get_access_token (H := sample_constants) (H0 := plain_urllib)
            "http://[::1?state=x&code=y" (unstarted_flow, token_world)).1
         = Raise (ApiException msg)).
Proof.
  assert (Hrun : get_access_token (H := sample_constants) (H0 := plain_urllib)
                   "http://[::1?state=x&code=y" (unstarted_flow, token_world)
                 = (Raise (ValueError "Invalid IPv6 URL"),
                    (unstarted_flow, token_world))).
  { apply (proj1 (get_access_token_unsplit (H := sample_constants) (H0 := plain_urllib)
                    "http://[::1?state=x&code=y" unstarted_flow token_world)).
    vm_compute. reflexivity. }
  split; [reflexivity|]. split; [exact Hrun|].
  rewrite Hrun. intros [msg Hmsg]. discriminate Hmsg.
Qed.

(** C10 (amended).  On an instance whose stored state is [None], as
    [__init__] leaves it until [get_authorize_url] is called,
    [get_access_token] raises [ApiException] for every URL that [urlparse]
    splits, whatever parameters it carries; for every URL at all, split or
    not, it sends nothing and leaves the instance as it was. *)
Theorem get_access_token_before_authorize `{Constants} `{UrlLib}
    (self : OAuthServerAuthorisation.t) (w : World) :
  state self = VNone ->
  (forall url params,
     parse_url_params url = Return params ->
     get_access_token url (self, w)
     = (Raise (ApiException "Wrong or absent the state parameter."), (self, w)))
  /\ (forall url, (get_access_token url (self, w)).2 = (self, w)).
Proof.
  intros Hnone.
  assert (Hsplit : forall url params,
             parse_url_params url = Return params ->
             get_access_token url (self, w)
             = (Raise (ApiException "Wrong or absent the state parameter."), (self, w))).
  { intros url params Hparse. apply (get_access_token_rejects url params); [done|].
    rewrite Hnone. unfold dict_get.
    destruct (params !! "state") as [s|]; [|reflexivity].
    rewrite bool_decide_false by done. simpl. apply orb_true_r. }
  split; [exact Hsplit|].
  intros url. destruct (parse_url_params url) as [params|e|] eqn:Hparse.
  - by rewrite (Hsplit url params Hparse).
  - by rewrite (proj1 (get_access_token_unsplit url self w) e Hparse).
  - by rewrite (proj2 (get_access_token_unsplit url self w) Hparse).
Qed.

Lemma get_access_token_before_authorize_witness :
  get_access_token (H := sample_constants) (H0 := plain_urllib)
    "https://shop.example/cb?state=9f1c2d3e4b5a69788796a5b4c3d2e1f0&code=abc"
    (unstarted_flow, token_world)
  = (Raise (ApiException "Wrong or absent the state parameter."),
     (unstarted_flow, token_world)).
Proof.
  apply (proj1 (get_access_token_before_authorize (H := sample_constants)
                  (H0 := plain_urllib) unstarted_flow token_world eq_refl)
           "https://shop.example/cb?state=9f1c2d3e4b5a69788796a5b4c3d2e1f0&code=abc"
           (dict [("state", "9f1c2d3e4b5a69788796a5b4c3d2e1f0"); ("code", "abc")])).
  vm_compute. reflexivity.
Defined.

End Flow.

(** ** The token request of each grant *)

Section Grants.
Import OAuthServerAuthorisation.

Lemma api_post_request_world `{Constants} (url : string)
    (data : option (gmap string value)) (headers : option (gmap string string))
    (w : World) :
  (api_post_request url data headers w).2
  = log_request (request_of url data headers "POST" None false) w.
Proof. unfold api_post_request. by rewrite api_request_unfold. Qed.

Lemma dict_item_found {S} (d : gmap string value) (key : string) (v : value) (s : S) :
  d !! key = Some v -> dict_item d key s = (Return v, s).
Proof. unfold dict_item. by intros ->. Qed.

(** The password grant sends one request, with a Basic [Authorization]
    header built from the client id and secret. *)
Lemma oauth_password_authorization_request `{Constants} (data : gmap string value)
    (w : World) (cid secret user pass scope : value) (token_url : string) :
  data !! "client_id" = Some cid ->
  data !! "client_secret" = Some secret ->
  data !! "username" = Some user ->
  data !! "password" = Some pass ->
  data !! "scopes" = Some scope ->
  prepare_api_url TOKEN_URL (dict_get_default data "language" (VStr DEFAULT_LANGUAGE))
  = Return token_url ->
  exists r,
    sent (oauth_password_authorization data w).2 = sent w ++ [r]
    /\ req_method r = "POST" /\ req_url r = token_url
    /\ kw_headers (req_kwargs r) !! "Authorization"
       = Some ("Basic " +:+ b64encode (py_str cid +:+ ":" +:+ py_str secret)).
Proof.
  intros Hcid Hsecret Huser Hpass Hscope Hurl.
  unfold oauth_password_authorization, bind.
  rewrite (dict_item_found _ _ _ _ Hcid), (dict_item_found _ _ _ _ Hsecret),
    (dict_item_found _ _ _ _ Huser), (dict_item_found _ _ _ _ Hpass),
    (dict_item_found _ _ _ _ Hscope).
  unfold lift. rewrite Hurl.
  eexists. rewrite api_post_request_world. split; [reflexivity|].
  split; [reflexivity|]. split; [reflexivity|].
  simpl. unfold basic_headers. by simplify_map_eq.
Qed.

(** So does the client-credentials grant. *)
Lemma oauth_client_authorization_request `{Constants} (data : gmap string value)
    (w : World) (cid secret scope : value) (token_url : string) :
  data !! "client_id" = Some cid ->
  data !! "client_secret" = Some secret ->
  data !! "scopes" = Some scope ->
  prepare_api_url TOKEN_URL (dict_get_default data "language" (VStr DEFAULT_LANGUAGE))
  = Return token_url ->
  exists r,
    sent (oauth_client_authorization data w).2 = sent w ++ [r]
    /\ req_method r = "POST" /\ req_url r = token_url
    /\ kw_headers (req_kwargs r) !! "Authorization"
       = Some ("Basic " +:+ b64encode (py_str cid +:+ ":" +:+ py_str secret)).
Proof.
  intros Hcid Hsecret Hscope Hurl.
  unfold oauth_client_authorization, bind.
  rewrite (dict_item_found _ _ _ _ Hcid), (dict_item_found _ _ _ _ Hsecret),
    (dict_item_found _ _ _ _ Hscope).
  unfold lift. rewrite Hurl.
  eexists. rewrite api_post_request_world. split; [reflexivity|].
  split; [reflexivity|]. split; [reflexivity|].
  simpl. unfold basic_headers. by simplify_map_eq.
Qed.

(** What [get_access_token] leaves behind once the three checks pass. *)
Lemma get_access_token_world `{Constants} `{UrlLib} (url : string)
    (self : OAuthServerAuthorisation.t) (w : World) (s code token_url : string)
    (params : gmap string string) :
  parse_url_params url = Return params ->
  params !! "state" = Some s ->
  s <> "" ->
  state self = VStr s ->
  params !! "error" = None ->
  params !! "code" = Some code ->
  prepare_api_url TOKEN_URL (language self) = Return token_url ->
  (get_access_token url (self, w)).2
  = (self,
     log_request
       (request_of token_url
          (Some {[ "grant_type" := VStr "authorization_code";
                   "client_id" := client_id self;
                   "client_secret" := client_secret self;
                   "code" := VStr code;
                   "redirect_uri" := redirect_uri self ]})
          (Some {[ "Content-Type" := form_content_type ]})
          "POST" None false) w).
Proof.
  intros Hparse Hstate Hs Hself Herror Hcode Hurl.
  unfold get_access_token. run_monad. rewrite Hparse.
  unfold dict_get. rewrite Hstate, Hself, Herror, Hcode, Hurl.
  rewrite bool_decide_true by done. simpl.
  apply String.eqb_neq in Hs. rewrite Hs. simpl.
  match goal with
  | |- context [api_post_request ?u ?d ?h ?w0] =>
      pose proof (api_post_request_world u d h w0) as Hw;
      destruct (api_post_request u d h w0) as [o w1]
  end.
  simpl in Hw. subst w1.
  destruct o as [response|e|]; try reflexivity.
  destruct (py_in_json "access_token" response) as [present|e|]; try reflexivity.
  by destruct present.
Qed.

End Grants.

Section TokenRequest.
Import OAuthServerAuthorisation.

(** C6.  When the redirect URL passes the state, error and code checks of
    [get_access_token] (and [TOKEN_URL] formats to [token_url] with the
    language of the instance), the call leaves the instance as it was and
    adds exactly one request to those sent: a POST to [token_url] whose
    body is the dictionary with grant_type "authorization_code",
    client_id, client_secret, code and redirect_uri, and whose only header
    is the form-urlencoded content type, so it has no [Authorization]
    header.  The password and client-credentials grants send a Basic
    [Authorization] header with their one request. *)
Theorem get_access_token_token_request `{Constants} `{UrlLib} (url : string)
    (self : OAuthServerAuthorisation.t) (w : World) (s code token_url : string)
    (params : gmap string string) :
  parse_url_params url = Return params ->
  params !! "state" = Some s ->
  s <> "" ->
  state self = VStr s ->
  params !! "error" = None ->
  params !! "code" = Some code ->
  prepare_api_url TOKEN_URL (language self) = Return token_url ->
  (exists r,
     (get_access_token url (self, w)).2.1 = self
     /\ sent (get_access_token url (self, w)).2.2 = sent w ++ [r]
     /\ req_method r = "POST"
     /\ req_url r = token_url
     /\ kw_data (req_kwargs r)
        = Some (Some {[ "grant_type" := VStr "authorization_code";
                        "client_id" := client_id self;
                        "client_secret" := client_secret self;
                        "code" := VStr code;
                        "redirect_uri" := redirect_uri self ]})
     /\ kw_params (req_kwargs r) = None
     /\ kw_headers (req_kwargs r)
        = {[ "Content-Type" := "application/x-www-form-urlencoded" ]}
     /\ kw_headers (req_kwargs r) !! "Authorization" = None)
  /\ (forall data w0 cid secret user pass scope url0,
        data !! "client_id" = Some cid ->
        data !! "client_secret" = Some secret ->
        data !! "username" = Some user ->
        data !! "password" = Some pass ->
        data !! "scopes" = Some scope ->
        prepare_api_url TOKEN_URL
          (dict_get_default data "language" (VStr DEFAULT_LANGUAGE)) = Return url0 ->
        exists r,
          sent (oauth_password_authorization data w0).2 = sent w0 ++ [r]
          /\ kw_headers (req_kwargs r) !! "Authorization"
             = Some ("Basic " +:+ b64encode (py_str cid +:+ ":" +:+ py_str secret)))
  /\ (forall data w0 cid secret scope url0,
        data !! "client_id" = Some cid ->
        data !! "client_secret" = Some secret ->
        data !! "scopes" = Some scope ->
        prepare_api_url TOKEN_URL
          (dict_get_default data "language" (VStr DEFAULT_LANGUAGE)) = Return url0 ->
        exists r,
          sent (oauth_client_authorization data w0).2 = sent w0 ++ [r]
          /\ kw_headers (req_kwargs r) !! "Authorization"
             = Some ("Basic " +:+ b64encode (py_str cid +:+ ":" +:+ py_str secret))).
Proof.
  intros Hparse Hstate Hs Hself Herror Hcode Hurl. split; [|split].
  - eexists.
    rewrite (get_access_token_world url self w s code token_url params) by done.
    simpl. repeat (split; [reflexivity|]). done.
  - intros data w0 cid secret user pass scope url0 Hcid Hsecret Huser Hpass Hscope Hurl0.
    destruct (oauth_password_authorization_request data w0 cid secret user pass scope
                url0 Hcid Hsecret Huser Hpass Hscope Hurl0) as (r & Hsent & _ & _ & Hauth).
    eauto.
  - intros data w0 cid secret scope url0 Hcid Hsecret Hscope Hurl0.
    destruct (oauth_client_authorization_request data w0 cid secret scope
                url0 Hcid Hsecret Hscope Hurl0) as (r & Hsent & _ & _ & Hauth).
    eauto.
Qed.

Lemma get_access_token_token_request_witness :
  exists r,
    sent (get_access_token (H := sample_constants) (H0 := plain_urllib)
            "https://shop.example/cb?state=9f1c2d3e4b5a69788796a5b4c3d2e1f0&code=abc"
            (started_flow.1, started_flow.2)).2.2
    = sent started_flow.2 ++ [r]
    /\ req_method r = "POST"
    /\ req_url r = "https://api.admitad.com/en/token/"
    /\ kw_headers (req_kwargs r) !! "Authorization" = None.
Proof.
  destruct (proj1 (get_access_token_token_request
                     (H := sample_constants) (H0 := plain_urllib)
                     "https://shop.example/cb?state=9f1c2d3e4b5a69788796a5b4c3d2e1f0&code=abc"
                     started_flow.1 started_flow.2
                     "9f1c2d3e4b5a69788796a5b4c3d2e1f0" "abc"
                     "https://api.admitad.com/en/token/"
                     good_redirect_params
                     ltac:(vm_compute; reflexivity)
                     ltac:(vm_compute; reflexivity)
                     ltac:(discriminate)
                     ltac:(vm_compute; reflexivity)
                     ltac:(vm_compute; reflexivity)
                     ltac:(vm_compute; reflexivity)
                     ltac:(vm_compute; reflexivity)))
    as (r & _ & Hsent & Hmethod & Hurl & _ & _ & _ & Hauth).
  exists r. repeat split; assumption.
Defined.

End TokenRequest.

(** ** The flows end to end, on the sample configuration *)

Example get_access_token_returns_token :
  (OAuthServerAuthorisation.get_access_token
     (H := sample_constants) (H0 := plain_urllib)
     "https://shop.example/cb?state=9f1c2d3e4b5a69788796a5b4c3d2e1f0&code=abc"
     started_flow).1
  = Return token_body.
Proof. vm_compute. reflexivity. Qed.

Example get_access_token_provider_error :
  OAuthServerAuthorisation.get_access_token
    (H := sample_constants) (H0 := plain_urllib)
    "https://shop.example/cb?state=9f1c2d3e4b5a69788796a5b4c3d2e1f0&error=access_denied"
    started_flow
  = (Raise (ApiException "access_denied"), started_flow).
Proof. vm_compute. reflexivity. Qed.

Example call_with_url_keyword :
  let run :=
    HttpTransport.__call__ (H := sample_constants)
      {| HttpTransport.kw_language := Some (VStr "pl");
         HttpTransport.kw_url := Some "https://api.admitad.com/%(language)s/announcements/";
         HttpTransport.kw_handler := None |}
      (fresh_transport, quiet_world) in
  run.1 = Return (JArr [])
  /\ req_url <$> sent run.2.2 = ["https://api.admitad.com/pl/announcements/"]
  /\ req_method <$> sent run.2.2 = ["GET"].
Proof. vm_compute. repeat split; reflexivity. Qed.

(** * Further properties of the module *)

(** ** [prepare_request_data] and the executor *)

(** X1.  [prepare_request_data] passes [data] as the body for POST, as the
    query parameters for GET, and drops it for every other method; the
    request always follows redirects, and a missing timeout becomes
    [DEFAULT_REQUEST_TIMEOUT]. *)
Theorem prepare_request_data_routes_data `{Constants}
    (data : option (gmap string value)) (headers : option (gmap string string))
    (method : string) (timeout : option Z) (ssl_verify : bool) :
  let kwargs := prepare_request_data data headers method timeout ssl_verify in
  (method = "POST" -> kw_data kwargs = Some data /\ kw_params kwargs = None)
  /\ (method = "GET" -> kw_params kwargs = Some data /\ kw_data kwargs = None)
  /\ (method <> "POST" -> method <> "GET" ->
        kw_data kwargs = None /\ kw_params kwargs = None)
  /\ kw_allow_redirects kwargs = true
  /\ kw_verify kwargs = ssl_verify
  /\ (timeout = None -> kw_timeout kwargs = DEFAULT_REQUEST_TIMEOUT)
  /\ (headers = None -> kw_headers kwargs = ∅).
Proof.
  simpl. repeat split; intros; subst; try reflexivity.
  - match goal with Hne : method <> "POST" |- _ =>
      apply String.eqb_neq in Hne; by rewrite Hne end.
  - match goal with Hne : method <> "GET" |- _ =>
      apply String.eqb_neq in Hne; by rewrite Hne end.
Qed.

Lemma prepare_request_data_routes_data_witness :
  kw_data (prepare_request_data (H := sample_constants)
             (Some sample_data) None "PUT" None false) = None
  /\ kw_params (prepare_request_data (H := sample_constants)
                  (Some sample_data) None "PUT" None false) = None.
Proof.
  apply (proj1 (proj2 (proj2 (prepare_request_data_routes_data (H := sample_constants)
                                (Some sample_data) None "PUT" None false))));
    discriminate.
Defined.

(** X2.  [api_request] calls [requests.request] exactly once, with the
    method and URL it was given and the keyword arguments of
    [prepare_request_data], whatever the reply: a response of any status, a
    body that does not parse or an exception of [requests] is never
    followed by a second call. *)
Theorem api_request_one_request `{Constants} (url : string)
    (data : option (gmap string value)) (headers : option (gmap string string))
    (method : string) (timeout : option Z) (ssl_verify : bool) (w : World) :
  sent (api_request url data headers method timeout ssl_verify w).2
  = sent w ++ [{| req_method := method;
                  req_url := url;
                  req_kwargs :=
                    prepare_request_data data headers method timeout ssl_verify |}].
Proof. rewrite api_request_unfold. reflexivity. Qed.

Lemma raise_for_status_quiet (response : Response) :
  status_code response < 400 \/ 600 <= status_code response ->
  raise_for_status response = None.
Proof.
  intros Hstatus. unfold raise_for_status.
  assert (Hrange : (400 <=? status_code response) && (status_code response <? 600)
                   = false).
  { apply andb_false_iff. destruct Hstatus; [left; apply Z.leb_gt | right; apply Z.ltb_ge];
      lia. }
  by rewrite Hrange.
Qed.

(** X3.  When the exchange returns a body that parses and a status outside
    400 to 599, [api_request] returns the parsed body. *)
Theorem api_request_returns_body `{Constants} (url : string)
    (data : option (gmap string value)) (headers : option (gmap string string))
    (method : string) (timeout : option Z) (ssl_verify : bool) (w : World)
    (response : Response) (body : json) :
  network w (sent w) (request_of url data headers method timeout ssl_verify)
  = inl response ->
  json_body response = inl body ->
  status_code response < 400 \/ 600 <= status_code response ->
  api_request url data headers method timeout ssl_verify w
  = (Return body,
     log_request (request_of url data headers method timeout ssl_verify) w).
Proof.
  intros Hnet Hbody Hstatus.
  by rewrite api_request_unfold, Hnet, Hbody, raise_for_status_quiet.
Qed.

Lemma api_request_returns_body_witness :
  api_request (H := sample_constants) announcements_url None None "GET" None false
    quiet_world
  = (Return (JArr []),
     log_request
       (request_of (H := sample_constants) announcements_url None None "GET" None false)
       quiet_world).
Proof.
  apply (api_request_returns_body (H := sample_constants) announcements_url None None
           "GET" None false quiet_world (ok_response (JArr [])) (JArr []));
    [reflexivity | reflexivity | left; simpl; lia].
Defined.

(** X4.  When [requests.request] raises, no response was obtained: an
    exception of any class but [HTTPError] becomes [ConnectionException]
    carrying it, and an [HTTPError] becomes [HttpException] with the
    initial status 500 and the initial empty body. *)
Theorem api_request_network_failure `{Constants} (url : string)
    (data : option (gmap string value)) (headers : option (gmap string string))
    (method : string) (timeout : option Z) (ssl_verify : bool) (w : World)
    (cls : requests_class) (msg : string) :
  network w (sent w) (request_of url data headers method timeout ssl_verify)
  = inr (cls, msg) ->
  (cls <> HTTPError ->
     (api_request url data headers method timeout ssl_verify w).1
     = Raise (ConnectionException (RequestsError cls msg)))
  /\ (cls = HTTPError ->
        (api_request url data headers method timeout ssl_verify w).1
        = Raise (HttpException 500 (JObj []) (RequestsError HTTPError msg))).
Proof.
  intros Hnet. rewrite api_request_unfold, Hnet. simpl. split.
  - intros Hcls. by destruct cls.
  - by intros ->.
Qed.

Lemma api_request_network_failure_witness :
  (api_request (H := sample_constants) announcements_url None None "GET" None false
     (world_answering (inr (Timeout, "timed out")))).1
  = Raise (ConnectionException (RequestsError Timeout "timed out")).
Proof.
  apply (proj1 (api_request_network_failure (H := sample_constants) announcements_url
                  None None "GET" None false
                  (world_answering (inr (Timeout, "timed out")))
                  Timeout "timed out" eq_refl)).
  discriminate.
Defined.

(** ** Headers *)

(** X6.  [build_headers] always gives the bearer [Authorization] header and
    [Connection: Keep-Alive]; it adds [User-Agent] exactly when the user
    agent is truthy, and nothing else. *)
Theorem build_headers_entries (access_token : string) (user_agent : value) :
  build_headers access_token user_agent !! "Authorization"
  = Some ("Bearer " +:+ access_token)
  /\ build_headers access_token user_agent !! "Connection" = Some "Keep-Alive"
  /\ build_headers access_token user_agent !! "User-Agent"
     = (if truthy user_agent then Some (py_str user_agent) else None)
  /\ (forall name, name <> "Authorization" -> name <> "Connection" ->
        name <> "User-Agent" ->
        build_headers access_token user_agent !! name = None).
Proof.
  unfold build_headers, build_authorization_headers.
  destruct (truthy user_agent); repeat split; intros; by simplify_map_eq.
Qed.

Lemma build_headers_entries_witness :
  build_headers "token" (VStr "") !! "Content-Type" = None.
Proof.
  apply (proj2 (proj2 (proj2 (build_headers_entries "token" (VStr "")))));
    discriminate.
Defined.

(** ** The grant functions *)

Section GrantFunctions.

Lemma dict_item_missing {S} (d : gmap string value) (key : string) (s : S) :
  d !! key = None -> dict_item d key s = (Raise (KeyError key), s).
Proof. unfold dict_item. by intros ->. Qed.

Ltac read_keys :=
  repeat match goal with
    | Hk : ?d !! ?k = Some ?v |- context [dict_item ?d ?k ?s] =>
        rewrite (dict_item_found d k v s Hk)
    | Hk : ?d !! ?k = None |- context [dict_item ?d ?k ?s] =>
        rewrite (dict_item_missing d k s Hk)
    end.

(** X7.  The password grant reads client_id, client_secret, username,
    password and scopes, in this order: when one is missing it raises
    [KeyError] for the first missing one, before any network call. *)
Theorem oauth_password_authorization_missing_key `{Constants}
    (data : gmap string value) (w : World) (key : string) :
  first_missing data ["client_id"; "client_secret"; "username"; "password"; "scopes"]
  = Some key ->
  oauth_password_authorization data w = (Raise (KeyError key), w).
Proof.
  unfold first_missing, oauth_password_authorization, bind. simpl.
  destruct (data !! "client_id") eqn:Hcid; read_keys;
    [|intros [= <-]; reflexivity].
  destruct (data !! "client_secret") eqn:Hsecret; read_keys;
    [|intros [= <-]; reflexivity].
  destruct (data !! "username") eqn:Huser; read_keys;
    [|intros [= <-]; reflexivity].
  destruct (data !! "password") eqn:Hpass; read_keys;
    [|intros [= <-]; reflexivity].
  destruct (data !! "scopes") eqn:Hscope; read_keys;
    [|intros [= <-]; reflexivity].
  discriminate.
Qed.

Lemma oauth_password_authorization_missing_key_witness :
  oauth_password_authorization (H := sample_constants)
    (delete "scopes"
       (<[ "username" := VStr "user" ]> (<[ "password" := VStr "pw" ]> sample_data)))
    quiet_world
  = (Raise (KeyError "scopes"), quiet_world).
Proof.
  apply (oauth_password_authorization_missing_key (H := sample_constants)).
  vm_compute. reflexivity.
Defined.

(** X8.  With its five keys present, the password grant is one call of the
    executor: a POST to the token URL for the given (or default) language,
    with the body grant_type "password", client_id, username, password and
    scope, and the form content type and Basic authorization headers.  The
    executor's result comes back unchanged, whatever it holds. *)
Theorem oauth_password_authorization_request_and_result `{Constants}
    (data : gmap string value) (w : World)
    (cid secret user pass scope : value) (token_url : string) :
  data !! "client_id" = Some cid ->
  data !! "client_secret" = Some secret ->
  data !! "username" = Some user ->
  data !! "password" = Some pass ->
  data !! "scopes" = Some scope ->
  prepare_api_url TOKEN_URL (dict_get_default data "language" (VStr DEFAULT_LANGUAGE))
  = Return token_url ->
  oauth_password_authorization data w
  = api_request token_url
      (Some {[ "grant_type" := VStr "password";
               "client_id" := cid;
               "username" := user;
               "password" := pass;
               "scope" := scope ]})
      (Some {[ "Content-Type" := "application/x-www-form-urlencoded";
               "Authorization" := "Basic "
                 +:+ b64encode (py_str cid +:+ ":" +:+ py_str secret) ]})
      "POST" None false w.
Proof.
  intros Hcid Hsecret Huser Hpass Hscope Hurl.
  unfold oauth_password_authorization, bind. read_keys.
  unfold lift. rewrite Hurl. reflexivity.
Qed.

Lemma oauth_password_authorization_request_and_result_witness :
  (oauth_password_authorization (H := sample_constants)
     (<[ "username" := VStr "user" ]> (<[ "password" := VStr "pw" ]> sample_data))
     token_world).1
  = Return token_body.
Proof.
  rewrite (oauth_password_authorization_request_and_result (H := sample_constants)
             _ token_world (VStr "cid") (VStr "secret") (VStr "user") (VStr "pw")
             (VStr "announcements") "https://api.admitad.com/en/token/");
    vm_compute; reflexivity.
Defined.

(** X9.  The client-credentials grant reads client_id, client_secret and
    scopes only: it raises [KeyError] for the first of these that is
    missing, before any network call. *)
Theorem oauth_client_authorization_missing_key `{Constants}
    (data : gmap string value) (w : World) (key : string) :
  first_missing data ["client_id"; "client_secret"; "scopes"] = Some key ->
  oauth_client_authorization data w = (Raise (KeyError key), w).
Proof.
  unfold first_missing, oauth_client_authorization, bind. simpl.
  destruct (data !! "client_id") eqn:Hcid; read_keys;
    [|intros [= <-]; reflexivity].
  destruct (data !! "client_secret") eqn:Hsecret; read_keys;
    [|intros [= <-]; reflexivity].
  destruct (data !! "scopes") eqn:Hscope; read_keys;
    [|intros [= <-]; reflexivity].
  discriminate.
Qed.

Lemma oauth_client_authorization_missing_key_witness :
  oauth_client_authorization (H := sample_constants)
    (delete "client_secret" sample_data) quiet_world
  = (Raise (KeyError "client_secret"), quiet_world).
Proof.
  apply (oauth_client_authorization_missing_key (H := sample_constants)).
  vm_compute. reflexivity.
Defined.

(** X10.  With client_id, client_secret and scopes present, the
    client-credentials grant is one call of the executor: a POST to the
    token URL with the body grant_type "client_credentials", client_id and
    scope and the same two headers as the password grant; username and
    password entries play no part, and the result comes back unchanged. *)
Theorem oauth_client_authorization_request_and_result `{Constants}
    (data : gmap string value) (w : World)
    (cid secret scope : value) (token_url : string) :
  data !! "client_id" = Some cid ->
  data !! "client_secret" = Some secret ->
  data !! "scopes" = Some scope ->
  prepare_api_url TOKEN_URL (dict_get_default data "language" (VStr DEFAULT_LANGUAGE))
  = Return token_url ->
  oauth_client_authorization data w
  = api_request token_url
      (Some {[ "grant_type" := VStr "client_credentials";
               "client_id" := cid;
               "scope" := scope ]})
      (Some {[ "Content-Type" := "application/x-www-form-urlencoded";
               "Authorization" := "Basic "
                 +:+ b64encode (py_str cid +:+ ":" +:+ py_str secret) ]})
      "POST" None false w.
Proof.
  intros Hcid Hsecret Hscope Hurl.
  unfold oauth_client_authorization, bind. read_keys.
  unfold lift. rewrite Hurl. reflexivity.
Qed.

Lemma oauth_client_authorization_request_and_result_witness :
  (oauth_client_authorization (H := sample_constants) sample_data token_world).1
  = Return token_body.
Proof.
  rewrite (oauth_client_authorization_request_and_result (H := sample_constants)
             sample_data token_world (VStr "cid") (VStr "secret")
             (VStr "announcements") "https://api.admitad.com/en/token/");
    vm_compute; reflexivity.
Defined.

End GrantFunctions.

(** ** The authorization-code flow, step by step *)

Section FlowSteps.
Import OAuthServerAuthorisation.

(** X11.  [OAuthServerAuthorisation(data)] needs client_id, client_secret
    and scopes, and raises [KeyError] for the first one missing.  Otherwise
    it copies them, takes redirect_uri or [None], takes language or
    [DEFAULT_LANGUAGE], and starts with no state. *)
Theorem init_reads_data `{Constants} (data : gmap string value) :
  (forall key,
     first_missing data ["client_id"; "client_secret"; "scopes"] = Some key ->
     __init__ data = Raise (KeyError key))
  /\ (forall cid secret scope,
        data !! "client_id" = Some cid ->
        data !! "client_secret" = Some secret ->
        data !! "scopes" = Some scope ->
        __init__ data
        = Return {| client_id := cid;
                    client_secret := secret;
                    scopes := scope;
                    redirect_uri :=
                      match data !! "redirect_uri" with Some u => u | None => VNone end;
                    language :=
                      match data !! "language" with
                      | Some l => l
                      | None => VStr DEFAULT_LANGUAGE
                      end;
                    state := VNone |}).
Proof.
  unfold first_missing, __init__. simpl. split.
  - intros key.
    destruct (data !! "client_id"); [|by intros [= <-]].
    destruct (data !! "client_secret"); [|by intros [= <-]].
    destruct (data !! "scopes"); [|by intros [= <-]].
    discriminate.
  - by intros cid secret scope -> -> ->.
Qed.

Lemma init_reads_data_witness :
  __init__ (H := sample_constants) (delete "scopes" sample_data)
  = Raise (KeyError "scopes").
Proof.
  apply (proj1 (init_reads_data (H := sample_constants) (delete "scopes" sample_data))).
  vm_compute. reflexivity.
Defined.

Lemma get_authorize_url_run `{Constants} `{UrlLib}
    (self : OAuthServerAuthorisation.t) (w : World) (base : string) :
  prepare_api_url AUTHORIZE_URL (language self) = Return base ->
  get_authorize_url (self, w)
  = (Return (base +:+ "?" +:+
             urlencode {[ "client_id" := client_id self;
                          "response_type" := VStr "code";
                          "state" := VStr (uuid4_hex w (uuid4_drawn w));
                          "scope" := scopes self;
                          "redirect_uri" := redirect_uri self ]}),
     (set_state (VStr (uuid4_hex w (uuid4_drawn w))) self, draw_uuid w)).
Proof.
  intros Hbase. unfold get_authorize_url, uuid4_get_hex. run_monad.
  by rewrite Hbase.
Qed.

(** X12.  [get_authorize_url] draws one uuid, stores its hex form as the
    state and changes no other attribute; it sends no request; with an
    [AUTHORIZE_URL] that formats to [base] it returns [base], a question
    mark and the urlencoded parameters client_id, response_type "code", the
    new state, scope and redirect_uri. *)
Theorem get_authorize_url_stores_state `{Constants} `{UrlLib}
    (self : OAuthServerAuthorisation.t) (w : World) (base : string) :
  prepare_api_url AUTHORIZE_URL (language self) = Return base ->
  let hex := uuid4_hex w (uuid4_drawn w) in
  get_authorize_url (self, w)
  = (Return (base +:+ "?" +:+
             urlencode {[ "client_id" := client_id self;
                          "response_type" := VStr "code";
                          "state" := VStr hex;
                          "scope" := scopes self;
                          "redirect_uri" := redirect_uri self ]}),
     (set_state (VStr hex) self, draw_uuid w))
  /\ sent (draw_uuid w) = sent w.
Proof.
  intros Hbase hex. split; [|reflexivity].
  exact (get_authorize_url_run self w base Hbase).
Qed.

Lemma get_authorize_url_stores_state_witness :
  (get_authorize_url (H := sample_constants) (H0 := plain_urllib)
     (unstarted_flow, token_world)).2
  = (set_state (VStr "9f1c2d3e4b5a69788796a5b4c3d2e1f0") unstarted_flow,
     draw_uuid token_world).
Proof.
  rewrite (proj1 (get_authorize_url_stores_state (H := sample_constants)
                    (H0 := plain_urllib) unstarted_flow token_world
                    "https://api.admitad.com/en/authorize/" eq_refl)).
  reflexivity.
Defined.

(** X13.  A second [get_authorize_url] replaces the stored state by the
    next uuid: a redirect that carries the state of the first call is then
    rejected, when the two uuids differ, and nothing is sent. *)
Theorem get_authorize_url_twice_invalidates `{Constants} `{UrlLib}
    (self : OAuthServerAuthorisation.t) (w : World) (base url : string)
    (params : gmap string string) :
  parse_url_params url = Return params ->
  prepare_api_url AUTHORIZE_URL (language self) = Return base ->
  uuid4_hex w (uuid4_drawn w) <> uuid4_hex w (S (uuid4_drawn w)) ->
  params !! "state"
  = Some (uuid4_hex w (uuid4_drawn w)) ->
  let s1 := (get_authorize_url (self, w)).2 in
  let s2 := (get_authorize_url s1).2 in
  state s2.1 = VStr (uuid4_hex w (S (uuid4_drawn w)))
  /\ get_access_token url s2
     = (Raise (ApiException "Wrong or absent the state parameter."), s2).
Proof.
  intros Hparse Hbase Hfresh Hurl s1 s2. subst s1 s2.
  rewrite (get_authorize_url_run self w base Hbase). simpl.
  rewrite (get_authorize_url_run
             (set_state (VStr (uuid4_hex w (uuid4_drawn w))) self)
             (draw_uuid w) base Hbase).
  simpl.
  split; [reflexivity|].
  apply (get_access_token_rejects url params); [done|].
  unfold dict_get. rewrite Hurl. simpl.
  rewrite bool_decide_false; [apply orb_true_r|].
  intros [= Heq]. by apply Hfresh.
Qed.

Lemma get_authorize_url_twice_invalidates_witness :
  get_access_token (H := sample_constants) (H0 := plain_urllib)
    "https://shop.example/cb?state=aaaa&code=abc"
    (get_authorize_url (H := sample_constants) (H0 := plain_urllib)
       (get_authorize_url (H := sample_constants) (H0 := plain_urllib)
          (unstarted_flow, two_uuid_world)).2).2
  = (Raise (ApiException "Wrong or absent the state parameter."),
     (get_authorize_url (H := sample_constants) (H0 := plain_urllib)
        (get_authorize_url (H := sample_constants) (H0 := plain_urllib)
           (unstarted_flow, two_uuid_world)).2).2).
Proof.
  apply (proj2 (get_authorize_url_twice_invalidates (H := sample_constants)
                  (H0 := plain_urllib) unstarted_flow two_uuid_world
                  "https://api.admitad.com/en/authorize/"
                  "https://shop.example/cb?state=aaaa&code=abc"
                  (dict [("state", "aaaa"); ("code", "abc")])
                  ltac:(vm_compute; reflexivity)
                  eq_refl ltac:(discriminate) ltac:(vm_compute; reflexivity))).
Defined.

(** X14.  The two steps compose: after [get_authorize_url], a redirect URL
    that carries the stored (non-empty) state and a code, and no error,
    passes the checks, and [get_access_token] sends the token request with
    that code; the stored state stays in place. *)
Theorem authorize_then_token `{Constants} `{UrlLib}
    (self : OAuthServerAuthorisation.t) (w : World)
    (base url code token_url : string)
    (params : gmap string string) :
  parse_url_params url = Return params ->
  prepare_api_url AUTHORIZE_URL (language self) = Return base ->
  prepare_api_url TOKEN_URL (language self) = Return token_url ->
  uuid4_hex w (uuid4_drawn w) <> "" ->
  params !! "state"
  = Some (uuid4_hex w (uuid4_drawn w)) ->
  params !! "error" = None ->
  params !! "code" = Some code ->
  let s1 := (get_authorize_url (self, w)).2 in
  (get_access_token url s1).2
  = (s1.1,
     log_request
       (request_of token_url
          (Some {[ "grant_type" := VStr "authorization_code";
                   "client_id" := client_id self;
                   "client_secret" := client_secret self;
                   "code" := VStr code;
                   "redirect_uri" := redirect_uri self ]})
          (Some {[ "Content-Type" := form_content_type ]})
          "POST" None false) s1.2).
Proof.
  intros Hparse Hbase Htoken Hhex Hstate Herror Hcode s1. subst s1.
  rewrite (get_authorize_url_run self w base Hbase). simpl.
  exact (get_access_token_world url (set_state (VStr (uuid4_hex w (uuid4_drawn w))) self)
           (draw_uuid w) _ code token_url params Hparse Hstate Hhex eq_refl Herror Hcode
           Htoken).
Qed.

Lemma authorize_then_token_witness :
  sent (get_access_token (H := sample_constants) (H0 := plain_urllib)
          "https://shop.example/cb?state=9f1c2d3e4b5a69788796a5b4c3d2e1f0&code=abc"
          (get_authorize_url (H := sample_constants) (H0 := plain_urllib)
             (unstarted_flow, token_world)).2).2.2
  = [request_of (H := sample_constants) "https://api.admitad.com/en/token/"
       (Some {[ "grant_type" := VStr "authorization_code";
                "client_id" := VStr "cid";
                "client_secret" := VStr "secret";
                "code" := VStr "abc";
                "redirect_uri" := VStr "https://shop.example/cb" ]})
       (Some {[ "Content-Type" := form_content_type ]})
       "POST" None false].
Proof.
  rewrite (authorize_then_token (H := sample_constants) (H0 := plain_urllib)
             unstarted_flow token_world "https://api.admitad.com/en/authorize/"
             "https://shop.example/cb?state=9f1c2d3e4b5a69788796a5b4c3d2e1f0&code=abc"
             "abc" "https://api.admitad.com/en/token/" good_redirect_params
             ltac:(vm_compute; reflexivity)
             eq_refl eq_refl ltac:(discriminate) ltac:(vm_compute; reflexivity)
             ltac:(vm_compute; reflexivity) ltac:(vm_compute; reflexivity)).
  reflexivity.
Defined.

End FlowSteps.

(** ** [get_access_token] past the state check *)

Section AfterStateCheck.
Import OAuthServerAuthorisation.

Lemma get_access_token_state_ok `{Constants} `{UrlLib} (url : string)
    (self : OAuthServerAuthorisation.t) (w : World) (s : string)
    (params : gmap string string) :
  parse_url_params url = Return params ->
  params !! "state" = Some s ->
  s <> "" ->
  state self = VStr s ->
  get_access_token url (self, w)
  = match params !! "error" with
    | Some err => (Raise (ApiException err), (self, w))
    | None =>
        match params !! "code" with
        | None =>
            (Raise (ApiException "Invalid response. The authorization code is absent."),
             (self, w))
        | Some code =>
            match prepare_api_url TOKEN_URL (language self) with
            | Return token_url =>
                let (o, w') :=
                  api_request token_url
                    (Some {[ "grant_type" := VStr "authorization_code";
                             "client_id" := client_id self;
                             "client_secret" := client_secret self;
                             "code" := VStr code;
                             "redirect_uri" := redirect_uri self ]})
                    (Some {[ "Content-Type" := form_content_type ]})
                    "POST" None false w in
                (match o with
                 | Return response =>
                     match py_in_json "access_token" response with
                     | Return true => Return response
                     | Return false =>
                         Raise (ApiException
                                  "Invalid response. The access_token is absent.")
                     | Raise e => Raise e
                     | OutOfModel => OutOfModel
                     end
                 | Raise e => Raise e
                 | OutOfModel => OutOfModel
                 end, (self, w'))
            | Raise e => (Raise e, (self, w))
            | OutOfModel => (OutOfModel, (self, w))
            end
        end
    end.
Proof.
  intros Hparse Hstate Hs Hself. unfold get_access_token. run_monad. rewrite Hparse.
  unfold dict_get. rewrite Hstate, Hself.
  rewrite bool_decide_true by done. simpl.
  apply String.eqb_neq in Hs. rewrite Hs. simpl.
  destruct (_ !! "error"); [reflexivity|].
  destruct (_ !! "code") as [code|]; [|reflexivity].
  destruct (prepare_api_url TOKEN_URL (language self)) as [token_url|e|];
    try reflexivity.
  unfold api_post_request. cbn [fst snd].
  destruct (api_request token_url _ _ "POST" None false w) as [[response|e|] w'];
    try reflexivity.
  destruct (py_in_json "access_token" response) as [[]|e|]; reflexivity.
Qed.

(** X15.  A redirect URL with the right state and an [error] parameter
    makes [get_access_token] raise [ApiException] carrying the provider's
    error value, without a token request, whether or not a code is there. *)
Theorem get_access_token_provider_error_raises `{Constants} `{UrlLib} (url : string)
    (self : OAuthServerAuthorisation.t) (w : World) (s err : string)
    (params : gmap string string) :
  parse_url_params url = Return params ->
  params !! "state" = Some s ->
  s <> "" ->
  state self = VStr s ->
  params !! "error" = Some err ->
  get_access_token url (self, w) = (Raise (ApiException err), (self, w)).
Proof.
  intros Hparse Hstate Hs Hself Herr.
  by rewrite (get_access_token_state_ok url self w s params Hparse Hstate Hs Hself), Herr.
Qed.

Lemma get_access_token_provider_error_raises_witness :
  get_access_token (H := sample_constants) (H0 := plain_urllib)
    "https://shop.example/cb?code=abc&error=access_denied&state=9f1c2d3e4b5a69788796a5b4c3d2e1f0"
    (started_flow.1, started_flow.2)
  = (Raise (ApiException "access_denied"), (started_flow.1, started_flow.2)).
Proof.
  apply (get_access_token_provider_error_raises (H := sample_constants)
           (H0 := plain_urllib)
           "https://shop.example/cb?code=abc&error=access_denied&state=9f1c2d3e4b5a69788796a5b4c3d2e1f0"
           started_flow.1 started_flow.2
           "9f1c2d3e4b5a69788796a5b4c3d2e1f0" "access_denied"
           (dict [("code", "abc"); ("error", "access_denied");
                  ("state", "9f1c2d3e4b5a69788796a5b4c3d2e1f0")]));
    [vm_compute; reflexivity | vm_compute; reflexivity | discriminate
    | vm_compute; reflexivity | vm_compute; reflexivity].
Defined.

(** X16.  A redirect URL with the right state, no [error] and no [code]
    makes [get_access_token] raise [ApiException], without a token
    request. *)
Theorem get_access_token_missing_code_raises `{Constants} `{UrlLib} (url : string)
    (self : OAuthServerAuthorisation.t) (w : World) (s : string)
    (params : gmap string string) :
  parse_url_params url = Return params ->
  params !! "state" = Some s ->
  s <> "" ->
  state self = VStr s ->
  params !! "error" = None ->
  params !! "code" = None ->
  get_access_token url (self, w)
  = (Raise (ApiException "Invalid response. The authorization code is absent."),
     (self, w)).
Proof.
  intros Hparse Hstate Hs Hself Herr Hcode.
  by rewrite (get_access_token_state_ok url self w s params Hparse Hstate Hs Hself), Herr, Hcode.
Qed.

Lemma get_access_token_missing_code_raises_witness :
  get_access_token (H := sample_constants) (H0 := plain_urllib)
    "https://shop.example/cb?state=9f1c2d3e4b5a69788796a5b4c3d2e1f0"
    (started_flow.1, started_flow.2)
  = (Raise (ApiException "Invalid response. The authorization code is absent."),
     (started_flow.1, started_flow.2)).
Proof.
  apply (get_access_token_missing_code_raises (H := sample_constants)
           (H0 := plain_urllib)
           "https://shop.example/cb?state=9f1c2d3e4b5a69788796a5b4c3d2e1f0"
           started_flow.1 started_flow.2
           "9f1c2d3e4b5a69788796a5b4c3d2e1f0"
           (dict [("state", "9f1c2d3e4b5a69788796a5b4c3d2e1f0")]));
    [vm_compute; reflexivity | vm_compute; reflexivity | discriminate
    | vm_compute; reflexivity | vm_compute; reflexivity | vm_compute; reflexivity].
Defined.

End AfterStateCheck.

(** ** [get_access_token] and the token response *)

Section TokenResponse.
Import OAuthServerAuthorisation.

(** Once the three checks pass, the outcome is that of the executor,
    filtered by the test for the [access_token] key. *)
Lemma get_access_token_checks_passed `{Constants} `{UrlLib} (url : string)
    (self : OAuthServerAuthorisation.t) (w : World) (s code token_url : string)
    (params : gmap string string) :
  parse_url_params url = Return params ->
  params !! "state" = Some s ->
  s <> "" ->
  state self = VStr s ->
  params !! "error" = None ->
  params !! "code" = Some code ->
  prepare_api_url TOKEN_URL (language self) = Return token_url ->
  (get_access_token url (self, w)).1
  = match (api_request token_url
             (Some {[ "grant_type" := VStr "authorization_code";
                      "client_id" := client_id self;
                      "client_secret" := client_secret self;
                      "code" := VStr code;
                      "redirect_uri" := redirect_uri self ]})
             (Some {[ "Content-Type" := form_content_type ]})
             "POST" None false w).1 with
    | Return response =>
        match py_in_json "access_token" response with
        | Return true => Return response
        | Return false =>
            Raise (ApiException "Invalid response. The access_token is absent.")
        | Raise e => Raise e
        | OutOfModel => OutOfModel
        end
    | Raise e => Raise e
    | OutOfModel => OutOfModel
    end.
Proof.
  intros Hparse Hstate Hs Hself Herror Hcode Hurl.
  rewrite (get_access_token_state_ok url self w s params Hparse Hstate Hs Hself).
  rewrite Herror, Hcode, Hurl.
  by destruct (api_request token_url _ _ "POST" None false w).
Qed.

Lemma has_key_spec (key : string) (members : list (string * json)) :
  existsb (fun kv => String.eqb kv.1 key) members = true <-> In key (map fst members).
Proof.
  rewrite existsb_exists, in_map_iff. split.
  - intros (kv & Hin & Heq). apply String.eqb_eq in Heq. eauto.
  - intros (kv & Heq & Hin). exists kv. split; [done|]. by apply String.eqb_eq.
Qed.

(** X17.  When the token endpoint answers the token request with a JSON
    object and a status outside 400 to 599, [get_access_token] returns the
    whole object unchanged if it has an [access_token] member, and raises
    [ApiException] if it has none. *)
Theorem get_access_token_needs_access_token `{Constants} `{UrlLib} (url : string)
    (self : OAuthServerAuthorisation.t) (w : World) (s code token_url : string)
    (response : Response) (members : list (string * json))
    (params : gmap string string) :
  parse_url_params url = Return params ->
  params !! "state" = Some s ->
  s <> "" ->
  state self = VStr s ->
  params !! "error" = None ->
  params !! "code" = Some code ->
  prepare_api_url TOKEN_URL (language self) = Return token_url ->
  network w (sent w)
    (request_of token_url
       (Some {[ "grant_type" := VStr "authorization_code";
                "client_id" := client_id self;
                "client_secret" := client_secret self;
                "code" := VStr code;
                "redirect_uri" := redirect_uri self ]})
       (Some {[ "Content-Type" := form_content_type ]})
       "POST" None false)
  = inl response ->
  json_body response = inl (JObj members) ->
  status_code response < 400 \/ 600 <= status_code response ->
  (In "access_token" (map fst members) ->
     (get_access_token url (self, w)).1 = Return (JObj members))
  /\ (~ In "access_token" (map fst members) ->
        (get_access_token url (self, w)).1
        = Raise (ApiException "Invalid response. The access_token is absent.")).
Proof.
  intros Hparse Hstate Hs Hself Herror Hcode Hurl Hnet Hbody Hstatus.
  rewrite (get_access_token_checks_passed url self w s code token_url params) by done.
  rewrite api_request_unfold, Hnet, Hbody, raise_for_status_quiet by done.
  simpl. split; intros Hkey.
  - apply has_key_spec in Hkey. by rewrite Hkey.
  - destruct (existsb _ members) eqn:E; [|done].
    by apply has_key_spec in E.
Qed.

Lemma get_access_token_needs_access_token_witness :
  (get_access_token (H := sample_constants) (H0 := plain_urllib)
     "https://shop.example/cb?state=9f1c2d3e4b5a69788796a5b4c3d2e1f0&code=abc"
     (started_flow.1,
      world_answering (inl (ok_response (JObj [("error", JStr "invalid_grant")]))))).1
  = Raise (ApiException "Invalid response. The access_token is absent.").
Proof.
  apply (proj2 (get_access_token_needs_access_token (H := sample_constants)
                  (H0 := plain_urllib)
                  "https://shop.example/cb?state=9f1c2d3e4b5a69788796a5b4c3d2e1f0&code=abc"
                  started_flow.1
                  (world_answering
                     (inl (ok_response (JObj [("error", JStr "invalid_grant")]))))
                  "9f1c2d3e4b5a69788796a5b4c3d2e1f0" "abc"
                  "https://api.admitad.com/en/token/"
                  (ok_response (JObj [("error", JStr "invalid_grant")]))
                  [("error", JStr "invalid_grant")]
                  good_redirect_params
                  ltac:(vm_compute; reflexivity)
                  ltac:(vm_compute; reflexivity) ltac:(discriminate)
                  ltac:(vm_compute; reflexivity) ltac:(vm_compute; reflexivity)
                  ltac:(vm_compute; reflexivity) ltac:(vm_compute; reflexivity)
                  eq_refl eq_refl ltac:(left; simpl; lia))).
  simpl. intros [Heq|[]]. discriminate Heq.
Defined.

(** X18.  When the token endpoint answers with JSON that is [null], a
    boolean or a number, the test for the [access_token] key itself fails:
    [get_access_token] ends with [TypeError], not with [ApiException]. *)
Theorem get_access_token_scalar_response `{Constants} `{UrlLib} (url : string)
    (self : OAuthServerAuthorisation.t) (w : World) (s code token_url : string)
    (response : Response) (body : json)
    (params : gmap string string) :
  parse_url_params url = Return params ->
  params !! "state" = Some s ->
  s <> "" ->
  state self = VStr s ->
  params !! "error" = None ->
  params !! "code" = Some code ->
  prepare_api_url TOKEN_URL (language self) = Return token_url ->
  network w (sent w)
    (request_of token_url
       (Some {[ "grant_type" := VStr "authorization_code";
                "client_id" := client_id self;
                "client_secret" := client_secret self;
                "code" := VStr code;
                "redirect_uri" := redirect_uri self ]})
       (Some {[ "Content-Type" := form_content_type ]})
       "POST" None false)
  = inl response ->
  json_body response = inl body ->
  status_code response < 400 \/ 600 <= status_code response ->
  match body with
  | JNull | JBool _ | JInt _ | JFloat _ => True
  | _ => False
  end ->
  exists msg, (get_access_token url (self, w)).1 = Raise (TypeError msg).
Proof.
  intros Hparse Hstate Hs Hself Herror Hcode Hurl Hnet Hbody Hstatus Hscalar.
  rewrite (get_access_token_checks_passed url self w s code token_url params) by done.
  rewrite api_request_unfold, Hnet, Hbody, raise_for_status_quiet by done.
  simpl. destruct body; try contradiction; eexists; reflexivity.
Qed.

Lemma get_access_token_scalar_response_witness :
  exists msg,
    (get_access_token (H := sample_constants) (H0 := plain_urllib)
       "https://shop.example/cb?state=9f1c2d3e4b5a69788796a5b4c3d2e1f0&code=abc"
       (started_flow.1, world_answering (inl (ok_response JNull)))).1
    = Raise (TypeError msg).
Proof.
  apply (get_access_token_scalar_response (H := sample_constants)
           (H0 := plain_urllib)
           "https://shop.example/cb?state=9f1c2d3e4b5a69788796a5b4c3d2e1f0&code=abc"
           started_flow.1 (world_answering (inl (ok_response JNull)))
           "9f1c2d3e4b5a69788796a5b4c3d2e1f0" "abc"
           "https://api.admitad.com/en/token/" (ok_response JNull) JNull
           good_redirect_params
           ltac:(vm_compute; reflexivity)
           ltac:(vm_compute; reflexivity) ltac:(discriminate)
           ltac:(vm_compute; reflexivity) ltac:(vm_compute; reflexivity)
           ltac:(vm_compute; reflexivity) ltac:(vm_compute; reflexivity)
           eq_refl eq_refl ltac:(left; simpl; lia) I).
Defined.

(** X19.  An exception of the executor during the token request leaves
    [get_access_token] unchanged: the same [HttpException],
    [ConnectionException] or [JsonException] reaches the caller. *)
Theorem get_access_token_propagates `{Constants} `{UrlLib} (url : string)
    (self : OAuthServerAuthorisation.t) (w : World) (s code token_url : string)
    (e : exception)
    (params : gmap string string) :
  parse_url_params url = Return params ->
  params !! "state" = Some s ->
  s <> "" ->
  state self = VStr s ->
  params !! "error" = None ->
  params !! "code" = Some code ->
  prepare_api_url TOKEN_URL (language self) = Return token_url ->
  (api_request token_url
     (Some {[ "grant_type" := VStr "authorization_code";
              "client_id" := client_id self;
              "client_secret" := client_secret self;
              "code" := VStr code;
              "redirect_uri" := redirect_uri self ]})
     (Some {[ "Content-Type" := form_content_type ]})
     "POST" None false w).1 = Raise e ->
  (get_access_token url (self, w)).1 = Raise e.
Proof.
  intros Hparse Hstate Hs Hself Herror Hcode Hurl Hraise.
  rewrite (get_access_token_checks_passed url self w s code token_url params) by done.
  by rewrite Hraise.
Qed.

Lemma get_access_token_propagates_witness :
  (get_access_token (H := sample_constants) (H0 := plain_urllib)
     "https://shop.example/cb?state=9f1c2d3e4b5a69788796a5b4c3d2e1f0&code=abc"
     (started_flow.1, world_answering (inl not_found))).1
  = Raise (HttpException 404 not_found_body (RequestsError HTTPError "Not Found")).
Proof.
  apply (get_access_token_propagates (H := sample_constants)
           (H0 := plain_urllib)
           "https://shop.example/cb?state=9f1c2d3e4b5a69788796a5b4c3d2e1f0&code=abc"
           started_flow.1 (world_answering (inl not_found))
           "9f1c2d3e4b5a69788796a5b4c3d2e1f0" "abc"
           "https://api.admitad.com/en/token/"
           (HttpException 404 not_found_body (RequestsError HTTPError "Not Found"))
           good_redirect_params
           ltac:(vm_compute; reflexivity)
           ltac:(vm_compute; reflexivity) ltac:(discriminate)
           ltac:(vm_compute; reflexivity) ltac:(vm_compute; reflexivity)
           ltac:(vm_compute; reflexivity) ltac:(vm_compute; reflexivity)
           ltac:(vm_compute; reflexivity)).
Defined.

Lemma foldl_insert_keeps {V} (k : string) (v : V) (back : list (string * V))
    (m : gmap string V) :
  ~ In k (map fst back) ->
  m !! k = Some v ->
  foldl (fun m kv => <[ kv.1 := kv.2 ]> m) m back !! k = Some v.
Proof.
  revert m. induction back as [|[k' v'] back IH]; intros m Hnot Hm; [done|].
  simpl in *. apply IH; [tauto|].
  rewrite lookup_insert_ne; [done|]. intros ->. tauto.
Qed.

(** [dict] keeps, for a key, its last pair. *)
Lemma dict_last_pair {V} (k : string) (v : V) (front back : list (string * V)) :
  ~ In k (map fst back) ->
  dict (front ++ (k, v) :: back) !! k = Some v.
Proof.
  intros Hnot. unfold dict. rewrite foldl_app. simpl.
  apply foldl_insert_keeps; [done|]. apply lookup_insert_eq.
Qed.

(** X20.  When the redirect URL repeats the [state] parameter, the last
    occurrence is the one compared with the stored state: if it differs,
    [get_access_token] raises [ApiException] and sends nothing, even if an
    earlier occurrence is the right one. *)
Theorem get_access_token_last_state_counts `{Constants} `{UrlLib} (url query : string)
    (self : OAuthServerAuthorisation.t) (w : World) (s : string)
    (front back : list (string * string)) :
  urlparse_query url = Return query ->
  parse_qsl query = front ++ ("state", s) :: back ->
  ~ In "state" (map fst back) ->
  VStr s <> state self ->
  get_access_token url (self, w)
  = (Raise (ApiException "Wrong or absent the state parameter."), (self, w)).
Proof.
  intros Hquery Hparse Hlast Hne.
  apply (get_access_token_rejects url (dict (parse_qsl query))).
  { unfold parse_url_params. by rewrite Hquery. }
  unfold dict_get. rewrite Hparse, (dict_last_pair "state" s front back Hlast).
  rewrite bool_decide_false by done. apply orb_true_r.
Qed.

Lemma get_access_token_last_state_counts_witness :
  get_access_token (H := sample_constants) (H0 := plain_urllib)
    "https://shop.example/cb?state=9f1c2d3e4b5a69788796a5b4c3d2e1f0&code=abc&state=0000"
    (started_flow.1, started_flow.2)
  = (Raise (ApiException "Wrong or absent the state parameter."),
     (started_flow.1, started_flow.2)).
Proof.
  apply (get_access_token_last_state_counts (H := sample_constants)
           (H0 := plain_urllib)
           "https://shop.example/cb?state=9f1c2d3e4b5a69788796a5b4c3d2e1f0&code=abc&state=0000"
           "state=9f1c2d3e4b5a69788796a5b4c3d2e1f0&code=abc&state=0000"
           started_flow.1 started_flow.2 "0000"
           [("state", "9f1c2d3e4b5a69788796a5b4c3d2e1f0"); ("code", "abc")] []
           ltac:(vm_compute; reflexivity) ltac:(vm_compute; reflexivity)
           ltac:(simpl; tauto)).
  intros Heq. vm_compute in Heq. discriminate Heq.
Defined.

End TokenResponse.

(** ** [HttpTransport]: what every operation keeps *)

Section Invariants.
Import HttpTransport.

Variable P : HttpTransport.t -> Prop.
Hypothesis P_language :
  forall l self, py_in l _supported_languages = true -> P self -> P (with_language l self).
Hypothesis P_url : forall u self, P self -> P (with_url u self).
Hypothesis P_data : forall d self, P self -> P (with_data d self).
Hypothesis P_method :
  forall m self, py_in m _supported_methods = true -> P self ->
                 P (with_method (py_str m) self).

Lemma keeps_ret {A} (a : A) : keeps P (ret a).
Proof. by intros s. Qed.

Lemma keeps_raise {A} (e : exception) : keeps P (raise (A := A) e).
Proof. by intros s. Qed.

Lemma keeps_lift {A} (o : Outcome A) : keeps P (lift o).
Proof. by intros s. Qed.

Lemma keeps_self : keeps P self_.
Proof. by intros s. Qed.

Lemma keeps_in_world {A} (m : M World A) : keeps P (in_world m).
Proof. intros s Hs. unfold in_world. by destruct (m s.2). Qed.

Lemma keeps_update (f : HttpTransport.t -> HttpTransport.t) :
  (forall self, P self -> P (f self)) -> keeps P (update_self f).
Proof. intros Hf s Hs. simpl. by apply Hf. Qed.

Lemma keeps_bind {A B} (m : M (HttpTransport.t * World) A)
    (k : A -> M (HttpTransport.t * World) B) :
  keeps P m -> (forall a, keeps P (k a)) -> keeps P (bind m k).
Proof.
  intros Hm Hk s Hs. unfold bind. specialize (Hm s Hs).
  destruct (m s) as [[a|e|] s']; simpl in *; [by apply Hk | done | done].
Qed.

Create HintDb keeps.
#[local] Hint Resolve keeps_ret keeps_raise keeps_lift keeps_self keeps_in_world : keeps.

Lemma keeps_set_language (l : value) : keeps P (set_language l).
Proof.
  unfold set_language. destruct (py_in l _supported_languages) eqn:Hl.
  - apply keeps_bind; [|auto with keeps]. apply keeps_update. auto.
  - apply keeps_raise.
Qed.

Lemma keeps_set_url `{Constants} (url : string) (l : value) : keeps P (set_url url l).
Proof.
  unfold set_url. apply keeps_bind.
  - destruct (truthy l); [|apply keeps_ret].
    apply keeps_bind; [apply keeps_set_language | auto with keeps].
  - intros _. apply keeps_bind; [apply keeps_lift|].
    intros prepared. apply keeps_bind; [|auto with keeps].
    apply keeps_update. auto.
Qed.

Lemma keeps_set_data (d : option (gmap string value)) : keeps P (set_data d).
Proof.
  unfold set_data. apply keeps_bind; [|auto with keeps]. apply keeps_update. auto.
Qed.

Lemma keeps_set_method (m : value) : keeps P (set_method m).
Proof.
  unfold set_method. destruct (py_in m _supported_methods) eqn:Hm.
  - apply keeps_bind; [|auto with keeps]. apply keeps_update. auto.
  - apply keeps_raise.
Qed.

Lemma keeps_call `{Constants} (kwargs : CallKwargs) : keeps P (__call__ kwargs).
Proof.
  unfold __call__. apply keeps_bind.
  { destruct (kw_language kwargs); [|apply keeps_ret].
    apply keeps_bind; [apply keeps_set_language | auto with keeps]. }
  intros _. apply keeps_bind.
  { destruct (kw_url kwargs); [|apply keeps_ret].
    apply keeps_bind; [apply keeps_self|]. intros self.
    apply keeps_bind; [apply keeps_set_url | auto with keeps]. }
  intros _. apply keeps_bind; [apply keeps_self|]. intros self.
  destruct (negb (truthy (_url self))); [apply keeps_raise|].
  apply keeps_bind; [apply keeps_in_world|]. intros response.
  destruct (kw_handler kwargs); [apply keeps_lift | apply keeps_ret].
Qed.

End Invariants.

Section TransportInvariants.
Import HttpTransport.

(** X21.  The headers a transport derives from its access token at
    construction are never changed: every setter, the attribute hook and
    the call leave them as they are, whether they return or raise.  The
    setters send nothing. *)
Theorem transport_headers_frozen `{Constants} (self : HttpTransport.t) (w : World) :
  (forall l, _headers (set_language l (self, w)).2.1 = _headers self
             /\ (set_language l (self, w)).2.2 = w)
  /\ (forall url l, _headers (set_url url l (self, w)).2.1 = _headers self
                    /\ (set_url url l (self, w)).2.2 = w)
  /\ (forall d, _headers (set_data d (self, w)).2.1 = _headers self
                /\ (set_data d (self, w)).2.2 = w)
  /\ (forall m, _headers (set_method m (self, w)).2.1 = _headers self
                /\ (set_method m (self, w)).2.2 = w)
  /\ (forall name, _headers (__getattr__ name (self, w)).2.1 = _headers self
                   /\ (__getattr__ name (self, w)).2.2 = w)
  /\ (forall kwargs, _headers (__call__ kwargs (self, w)).2.1 = _headers self).
Proof.
  set (P := fun t : HttpTransport.t => _headers t = _headers self).
  assert (Hl : forall l t, py_in l _supported_languages = true -> P t -> P (with_language l t))
    by (intros; assumption).
  assert (Hu : forall u t, P t -> P (with_url u t)) by (intros; assumption).
  assert (Hd : forall d t, P t -> P (with_data d t)) by (intros; assumption).
  assert (Hm : forall m t, py_in m _supported_methods = true -> P t ->
                           P (with_method (py_str m) t)) by (intros; assumption).
  split; [|split; [|split; [|split; [|split]]]].
  - intros l. split.
    + exact (keeps_set_language P Hl l (self, w) eq_refl).
    + unfold set_language. by destruct (py_in l _supported_languages).
  - intros url l. split.
    + exact (keeps_set_url P Hl Hu url l (self, w) eq_refl).
    + unfold set_url, set_language. run_monad.
      destruct (truthy l); [destruct (py_in l _supported_languages)|]; simpl;
        try reflexivity; by destruct (prepare_api_url url l).
  - intros d. split; [|reflexivity].
    exact (keeps_set_data P Hd d (self, w) eq_refl).
  - intros m. split.
    + exact (keeps_set_method P Hm m (self, w) eq_refl).
    + unfold set_method. by destruct (py_in m _supported_methods).
  - intros name. split.
    + exact (keeps_set_method P Hm (VStr name) (self, w) eq_refl).
    + unfold __getattr__, set_method.
      by destruct (py_in (VStr name) _supported_methods).
  - intros kwargs. exact (keeps_call P Hl Hu kwargs (self, w) eq_refl).
Qed.

(** X22.  A transport built without a method starts with method "GET" and
    no language.  From then on every operation keeps the stored method
    among {"GET", "POST"} and the stored language [None] or among
    {"ru", "en", "de", "pl"}, whether it returns or raises. *)
Theorem transport_keeps_method_and_language `{Constants}
    (self : HttpTransport.t) (w : World) :
  (forall token user_agent,
     _method (__init__ token VNone user_agent) = "GET"
     /\ _language (__init__ token VNone user_agent) = VNone
     /\ method_ok (__init__ token VNone user_agent)
     /\ language_ok (__init__ token VNone user_agent))
  /\ (method_ok self /\ language_ok self ->
      (forall l, let self' := (set_language l (self, w)).2.1 in
                 method_ok self' /\ language_ok self')
      /\ (forall url l, let self' := (set_url url l (self, w)).2.1 in
                        method_ok self' /\ language_ok self')
      /\ (forall d, let self' := (set_data d (self, w)).2.1 in
                    method_ok self' /\ language_ok self')
      /\ (forall m, let self' := (set_method m (self, w)).2.1 in
                    method_ok self' /\ language_ok self')
      /\ (forall kwargs, let self' := (__call__ kwargs (self, w)).2.1 in
                         method_ok self' /\ language_ok self')).
Proof.
  set (P := fun t : HttpTransport.t => method_ok t /\ language_ok t).
  assert (Hl : forall l t, py_in l _supported_languages = true -> P t -> P (with_language l t)).
  { intros l t Hin [Hmeth _]. split; [exact Hmeth|].
    destruct l as [|L]; [discriminate|]. right. exists L. split; [reflexivity|].
    by apply py_in_spec. }
  assert (Hu : forall u t, P t -> P (with_url u t)) by (intros u t Ht; exact Ht).
  assert (Hd : forall d t, P t -> P (with_data d t)) by (intros d t Ht; exact Ht).
  assert (Hm : forall m t, py_in m _supported_methods = true -> P t ->
                           P (with_method (py_str m) t)).
  { intros m t Hin [_ Hlang]. split; [|exact Hlang].
    destruct m as [|name]; [discriminate|]. by apply py_in_spec. }
  split.
  - intros token user_agent.
    split; [reflexivity|]. split; [reflexivity|].
    split; [left; reflexivity | left; reflexivity].
  - intros Hself. split; [|split; [|split; [|split]]].
    + intros l. exact (keeps_set_language P Hl l (self, w) Hself).
    + intros url l. exact (keeps_set_url P Hl Hu url l (self, w) Hself).
    + intros d. exact (keeps_set_data P Hd d (self, w) Hself).
    + intros m. exact (keeps_set_method P Hm m (self, w) Hself).
    + intros kwargs. exact (keeps_call P Hl Hu kwargs (self, w) Hself).
Qed.

Lemma transport_keeps_method_and_language_witness :
  method_ok
    (__call__ (H := sample_constants)
       {| kw_language := Some (VStr "xx");
          kw_url := Some "https://api.admitad.com/%(language)s/announcements/";
          kw_handler := None |}
       (fresh_transport, quiet_world)).2.1
  /\ language_ok
       (__call__ (H := sample_constants)
          {| kw_language := Some (VStr "xx");
             kw_url := Some "https://api.admitad.com/%(language)s/announcements/";
             kw_handler := None |}
          (fresh_transport, quiet_world)).2.1.
Proof.
  apply (proj2 (transport_keeps_method_and_language (H := sample_constants)
                  fresh_transport quiet_world)).
  split; [left; reflexivity | left; reflexivity].
Defined.

End TransportInvariants.

(** ** [HttpTransport]: requests and edge cases *)

Section TransportCalls.
Import HttpTransport.

(** The call of a transport whose URL is stored, the keyword arguments
    giving neither language nor URL. *)
Lemma call_with_stored_url `{Constants} (kwargs : CallKwargs)
    (self : HttpTransport.t) (w : World) (u : string) :
  kw_language kwargs = None ->
  kw_url kwargs = None ->
  _url self = VStr u ->
  u <> "" ->
  __call__ kwargs (self, w)
  = (match (api_request u (_data self) (Some (_headers self)) (_method self)
              None false w).1 with
     | Return response =>
         match kw_handler kwargs with
         | Some handler => handler response
         | None => Return response
         end
     | Raise e => Raise e
     | OutOfModel => OutOfModel
     end,
     (self,
      log_request
        (request_of u (_data self) (Some (_headers self)) (_method self) None false)
        w)).
Proof.
  intros Hkwl Hkwu Hurl Hu. unfold __call__. rewrite Hkwl, Hkwu.
  run_monad. rewrite Hurl. simpl.
  apply String.eqb_neq in Hu. rewrite Hu. simpl.
  unfold api_request_, in_world. cbn [fst snd].
  rewrite api_request_unfold. cbn [fst snd].
  match goal with
  | |- context [match ?o with Return _ => _ | Raise _ => _ | OutOfModel => _ end] =>
      destruct o as [response|e|]
  end; try reflexivity.
  unfold _handle_response, ret, lift.
  destruct (kw_handler kwargs); reflexivity.
Qed.

(** X23.  Calling a transport that has a non-empty URL stored, with keyword
    arguments that give neither language nor URL, issues exactly one
    request, built from the stored URL, method, headers and data, and
    leaves the instance as it was.  On success the result is the parsed
    response, passed through the handler when one is given; an exception
    of the executor reaches the caller unchanged and the handler is not
    applied. *)
Theorem call_issues_stored_request `{Constants} (kwargs : CallKwargs)
    (self : HttpTransport.t) (w : World) (u : string) :
  kw_language kwargs = None ->
  kw_url kwargs = None ->
  _url self = VStr u ->
  u <> "" ->
  (__call__ kwargs (self, w)).2.1 = self
  /\ sent (__call__ kwargs (self, w)).2.2
     = sent w ++ [{| req_method := _method self;
                     req_url := u;
                     req_kwargs :=
                       prepare_request_data (_data self) (Some (_headers self))
                         (_method self) None false |}]
  /\ (forall response,
        (api_request u (_data self) (Some (_headers self)) (_method self)
           None false w).1 = Return response ->
        (__call__ kwargs (self, w)).1
        = match kw_handler kwargs with
          | Some handler => handler response
          | None => Return response
          end)
  /\ (forall e,
        (api_request u (_data self) (Some (_headers self)) (_method self)
           None false w).1 = Raise e ->
        (__call__ kwargs (self, w)).1 = Raise e).
Proof.
  intros Hkwl Hkwu Hurl Hu.
  rewrite (call_with_stored_url kwargs self w u Hkwl Hkwu Hurl Hu).
  split; [reflexivity|]. split; [reflexivity|].
  split; [intros response Hr | intros e He]; simpl.
  - by rewrite Hr.
  - by rewrite He.
Qed.

Lemma call_issues_stored_request_witness :
  (__call__ (H := sample_constants)
     {| kw_language := None; kw_url := None;
        kw_handler := Some (fun response => Return (JArr [response])) |}
     (with_url (VStr announcements_url) fresh_transport, quiet_world)).1
  = Return (JArr [JArr []]).
Proof.
  apply (proj1 (proj2 (proj2 (call_issues_stored_request (H := sample_constants)
                                {| kw_language := None; kw_url := None;
                                   kw_handler :=
                                     Some (fun response => Return (JArr [response])) |}
                                (with_url (VStr announcements_url) fresh_transport)
                                quiet_world announcements_url
                                eq_refl eq_refl eq_refl ltac:(discriminate))))
           (JArr [])).
  reflexivity.
Defined.

(** X24.  The constructor stores any truthy [method] without the check of
    [set_method].  A transport whose stored method is neither "GET" nor
    "POST" sends its request with that method and with neither body nor
    query parameters: the stored data is dropped. *)
Theorem unchecked_method_drops_data `{Constants} (m : string) :
  m <> "" ->
  (forall token user_agent, _method (__init__ token (VStr m) user_agent) = m)
  /\ (m <> "GET" -> m <> "POST" ->
      forall self w u,
        _method self = m ->
        _url self = VStr u ->
        u <> "" ->
        exists r,
          sent (__call__ no_kwargs (self, w)).2.2 = sent w ++ [r]
          /\ req_method r = m
          /\ kw_data (req_kwargs r) = None
          /\ kw_params (req_kwargs r) = None).
Proof.
  intros Hm. split.
  - intros token user_agent. unfold __init__, py_or. simpl.
    apply String.eqb_neq in Hm. by rewrite Hm.
  - intros Hget Hpost self w u Hmeth Hurl Hu.
    rewrite (call_with_stored_url no_kwargs self w u eq_refl eq_refl Hurl Hu).
    eexists. split; [reflexivity|]. simpl. rewrite Hmeth.
    apply String.eqb_neq in Hget. apply String.eqb_neq in Hpost.
    rewrite Hget, Hpost. done.
Qed.

Lemma unchecked_method_drops_data_witness :
  _method (__init__ "token" (VStr "DELETE") VNone) = "DELETE".
Proof.
  apply (proj1 (unchecked_method_drops_data (H := sample_constants) "DELETE"
                  ltac:(discriminate))).
Defined.

(** X25.  [set_url(url, language)] with a truthy language outside the
    supported set raises [AttributeError] and changes nothing, the URL
    included.  With a supported language [L] and a template of text and
    placeholders it stores [L] as the language and the template with [L]
    in its placeholders as the URL: afterwards [_language] is [L] and
    [_url] is that URL. *)
Theorem set_url_with_language `{Constants} (self : HttpTransport.t) (w : World)
    (url L : string) :
  L <> "" ->
  (~ In L _supported_languages ->
     exists msg, set_url url (VStr L) (self, w) = (Raise (AttributeError msg), (self, w)))
  /\ (In L _supported_languages ->
      forall ps, forallb plain ps = true ->
        set_url (render ps) (VStr L) (self, w)
        = (Return (with_url (VStr (subst_language L ps)) (with_language (VStr L) self)),
           (with_url (VStr (subst_language L ps)) (with_language (VStr L) self), w))
        /\ _url (set_url (render ps) (VStr L) (self, w)).2.1
           = VStr (subst_language L ps)
        /\ _language (set_url (render ps) (VStr L) (self, w)).2.1 = VStr L
        /\ _method (set_url (render ps) (VStr L) (self, w)).2.1 = _method self
        /\ _data (set_url (render ps) (VStr L) (self, w)).2.1 = _data self).
Proof.
  intros HL. assert (HLt : truthy (VStr L) = true).
  { simpl. apply String.eqb_neq in HL. by rewrite HL. }
  split.
  - intros Hnot. unfold set_url, set_language.
    rewrite HLt, (py_in_false L _supported_languages Hnot). run_monad.
    eexists. reflexivity.
  - intros Hin ps Hplain. apply py_in_spec in Hin.
    unfold set_url, set_language.
    rewrite HLt, Hin, (prepare_api_url_template ps (VStr L) Hplain), HLt.
    repeat split.
Qed.

Lemma set_url_with_language_witness :
  exists msg,
    set_url (H := sample_constants) announcements_url (VStr "fr")
      (fresh_transport, quiet_world)
    = (Raise (AttributeError msg), (fresh_transport, quiet_world)).
Proof.
  apply (proj1 (set_url_with_language (H := sample_constants) fresh_transport
                  quiet_world announcements_url "fr" ltac:(discriminate))).
  simpl. intros [?|[?|[?|[?|[]]]]]; discriminate.
Defined.

(** X26.  [set_url] stores the language before it formats the URL: with a
    supported language and a template the format operator rejects, the
    exception leaves the transport with the new language and the old
    URL. *)
Theorem set_url_keeps_language_on_failure `{Constants}
    (self : HttpTransport.t) (w : World) (url L : string) (e : exception) :
  In L _supported_languages ->
  prepare_api_url url (VStr L) = Raise e ->
  set_url url (VStr L) (self, w) = (Raise e, (with_language (VStr L) self, w))
  /\ _language (with_language (VStr L) self) = VStr L
  /\ _url (with_language (VStr L) self) = _url self.
Proof.
  intros Hin Hfmt.
  assert (HLt : truthy (VStr L) = true).
  { simpl in Hin. by destruct Hin as [<-|[<-|[<-|[<-|[]]]]]. }
  apply py_in_spec in Hin.
  unfold set_url, set_language. rewrite HLt, Hin, Hfmt.
  repeat split.
Qed.

Lemma set_url_keeps_language_on_failure_witness :
  set_url (H := sample_constants) single_url_template (VStr "de")
    (fresh_transport, quiet_world)
  = (Raise (KeyError "id"), (with_language (VStr "de") fresh_transport, quiet_world)).
Proof.
  apply (proj1 (set_url_keeps_language_on_failure (H := sample_constants)
                  fresh_transport quiet_world single_url_template "de"
                  (KeyError "id") ltac:(simpl; tauto) ltac:(vm_compute; reflexivity))).
Defined.

End TransportCalls.

Section CallKeywords.
Import HttpTransport.

(** The keyword arguments with language and URL taken out. *)
Lemma call_language_and_url `{Constants} (kwargs : CallKwargs)
    (self : HttpTransport.t) (w : World) (L : string) (ps : list piece) :
  kw_language kwargs = Some (VStr L) ->
  In L _supported_languages ->
  kw_url kwargs = Some (render ps) ->
  forallb plain ps = true ->
  __call__ kwargs (self, w)
  = __call__ {| kw_language := None; kw_url := None;
                kw_handler := kw_handler kwargs |}
      (with_url (VStr (subst_language L ps)) (with_language (VStr L) self), w).
Proof.
  intros Hkwl HL Hkwu Hplain.
  assert (HLt : truthy (VStr L) = true).
  { simpl in HL. by destruct HL as [<-|[<-|[<-|[<-|[]]]]]. }
  apply py_in_spec in HL.
  unfold __call__, set_url, set_language. rewrite Hkwl, Hkwu.
  cbn [kw_language kw_url kw_handler].
  rewrite HL. unfold bind, ret, self_, update_self, lift. cbn [fst snd _language with_language].
  rewrite HLt, HL. cbn [fst snd].
  rewrite (prepare_api_url_template ps (VStr L) Hplain), HLt.
  reflexivity.
Qed.

Lemma call_url_default_language `{Constants} (kwargs : CallKwargs)
    (self : HttpTransport.t) (w : World) (ps : list piece) :
  kw_language kwargs = None ->
  _language self = VNone ->
  kw_url kwargs = Some (render ps) ->
  forallb plain ps = true ->
  __call__ kwargs (self, w)
  = __call__ {| kw_language := None; kw_url := None;
                kw_handler := kw_handler kwargs |}
      (with_url (VStr (subst_language DEFAULT_LANGUAGE ps)) self, w).
Proof.
  intros Hkwl Hlang Hkwu Hplain.
  unfold __call__, set_url. rewrite Hkwl, Hkwu.
  cbn [kw_language kw_url kw_handler].
  unfold bind, ret, self_, update_self, lift. cbn [fst snd].
  rewrite Hlang. cbn [truthy].
  rewrite (prepare_api_url_template ps VNone Hplain).
  reflexivity.
Qed.

(** The call of a transport whose stored URL is [None] or empty, the
    keyword arguments giving neither language nor URL. *)
Lemma call_with_falsy_url `{Constants} (kwargs : CallKwargs)
    (self : HttpTransport.t) (w : World) :
  kw_language kwargs = None ->
  kw_url kwargs = None ->
  truthy (_url self) = false ->
  __call__ kwargs (self, w)
  = (Raise (AttributeError "Absent url parameter. Use set_url method"), (self, w)).
Proof.
  intros Hkwl Hkwu Hurl. unfold __call__. rewrite Hkwl, Hkwu.
  unfold bind, ret, self_, raise. cbn [fst snd]. by rewrite Hurl.
Qed.

Lemma call_final_state `{Constants} (kwargs : CallKwargs)
    (self : HttpTransport.t) (w : World) (u : string) :
  kw_language kwargs = None ->
  kw_url kwargs = None ->
  _url self = VStr u ->
  (__call__ kwargs (self, w)).2.1 = self
  /\ (u <> "" ->
      exists r, sent (__call__ kwargs (self, w)).2.2 = sent w ++ [r]
                /\ req_url r = u /\ req_method r = _method self).
Proof.
  intros Hkwl Hkwu Hurl. destruct (decide (u = "")) as [->|Hu].
  - rewrite (call_with_falsy_url kwargs self w Hkwl Hkwu) by by rewrite Hurl.
    split; [reflexivity | done].
  - rewrite (call_with_stored_url kwargs self w u Hkwl Hkwu Hurl Hu).
    split; [reflexivity|]. intros _. eexists. repeat split.
Qed.

(** X27.  A [language] keyword outside the supported set makes the call
    raise [AttributeError] at once: the instance is left as it was, a
    [url] keyword given with it is not stored, and nothing is sent. *)
Theorem call_rejects_unsupported_language `{Constants} (kwargs : CallKwargs)
    (self : HttpTransport.t) (w : World) (l : value) :
  kw_language kwargs = Some l ->
  ~ (exists L, l = VStr L /\ In L _supported_languages) ->
  exists msg, __call__ kwargs (self, w) = (Raise (AttributeError msg), (self, w)).
Proof.
  intros Hkwl Hnot.
  assert (Hin : py_in l _supported_languages = false).
  { destruct l as [|L]; [reflexivity|]. apply py_in_false. intros HL. apply Hnot. eauto. }
  unfold __call__, set_language. rewrite Hkwl, Hin.
  unfold bind, raise. eexists. reflexivity.
Qed.

Lemma call_rejects_unsupported_language_witness :
  exists msg,
    __call__ (H := sample_constants)
      {| kw_language := Some (VStr "fr");
         kw_url := Some announcements_url;
         kw_handler := None |}
      (fresh_transport, quiet_world)
    = (Raise (AttributeError msg), (fresh_transport, quiet_world)).
Proof.
  apply (call_rejects_unsupported_language (H := sample_constants) _ _ _ (VStr "fr"));
    [reflexivity|].
  intros (L & [= <-] & HL). simpl in HL.
  destruct HL as [?|[?|[?|[?|[]]]]]; discriminate.
Defined.

(** X28.  When the call gets a template of text and placeholders as its
    [url] keyword: with a supported [language] keyword [L] it stores [L]
    and the template with [L] in its placeholders; with no [language]
    keyword and no language stored it stores the template with
    [DEFAULT_LANGUAGE].  In both cases the request, sent when the URL is
    not empty, goes to the URL just stored. *)
Theorem call_keywords_set_url `{Constants} (kwargs : CallKwargs)
    (self : HttpTransport.t) (w : World) (ps : list piece) :
  kw_url kwargs = Some (render ps) ->
  forallb plain ps = true ->
  (forall L,
     kw_language kwargs = Some (VStr L) ->
     In L _supported_languages ->
     (__call__ kwargs (self, w)).2.1
     = with_url (VStr (subst_language L ps)) (with_language (VStr L) self)
     /\ (subst_language L ps <> "" ->
         exists r, sent (__call__ kwargs (self, w)).2.2 = sent w ++ [r]
                   /\ req_url r = subst_language L ps
                   /\ req_method r = _method self))
  /\ (kw_language kwargs = None ->
      _language self = VNone ->
      (__call__ kwargs (self, w)).2.1
      = with_url (VStr (subst_language DEFAULT_LANGUAGE ps)) self
      /\ (subst_language DEFAULT_LANGUAGE ps <> "" ->
          exists r, sent (__call__ kwargs (self, w)).2.2 = sent w ++ [r]
                    /\ req_url r = subst_language DEFAULT_LANGUAGE ps
                    /\ req_method r = _method self)).
Proof.
  intros Hkwu Hplain. split.
  - intros L Hkwl HL.
    rewrite (call_language_and_url kwargs self w L ps Hkwl HL Hkwu Hplain).
    exact (call_final_state
             {| kw_language := None; kw_url := None; kw_handler := kw_handler kwargs |}
             (with_url (VStr (subst_language L ps)) (with_language (VStr L) self))
             w (subst_language L ps) eq_refl eq_refl eq_refl).
  - intros Hkwl Hlang.
    rewrite (call_url_default_language kwargs self w ps Hkwl Hlang Hkwu Hplain).
    exact (call_final_state
             {| kw_language := None; kw_url := None; kw_handler := kw_handler kwargs |}
             (with_url (VStr (subst_language DEFAULT_LANGUAGE ps)) self)
             w (subst_language DEFAULT_LANGUAGE ps) eq_refl eq_refl eq_refl).
Qed.

Lemma call_keywords_set_url_witness :
  (__call__ (H := sample_constants)
     {| kw_language := Some (VStr "pl");
        kw_url := Some "https://api.admitad.com/%(language)s/announcements/";
        kw_handler := None |}
     (fresh_transport, quiet_world)).2.1
  = with_url (VStr "https://api.admitad.com/pl/announcements/")
      (with_language (VStr "pl") fresh_transport).
Proof.
  apply (proj1 (call_keywords_set_url (H := sample_constants)
                  {| kw_language := Some (VStr "pl");
                     kw_url := Some "https://api.admitad.com/%(language)s/announcements/";
                     kw_handler := None |}
                  fresh_transport quiet_world
                  [Lit "https://api.admitad.com/"; Lang; Lit "/announcements/"]
                  eq_refl eq_refl) "pl" eq_refl ltac:(simpl; tauto)).
Defined.

(** X29.  An empty URL counts as no URL: [set_url("")] succeeds and stores
    the empty string, and the call that follows raises [AttributeError]
    without sending anything. *)
Theorem empty_url_is_absent `{Constants} (kwargs : CallKwargs)
    (self : HttpTransport.t) (w : World) :
  kw_language kwargs = None ->
  kw_url kwargs = None ->
  set_url "" VNone (self, w)
  = (Return (with_url (VStr "") self), (with_url (VStr "") self, w))
  /\ __call__ kwargs (set_url "" VNone (self, w)).2
     = (Raise (AttributeError "Absent url parameter. Use set_url method"),
        (with_url (VStr "") self, w)).
Proof.
  intros Hkwl Hkwu.
  assert (Hset : set_url "" VNone (self, w)
                 = (Return (with_url (VStr "") self), (with_url (VStr "") self, w)))
    by reflexivity.
  split; [exact Hset|]. rewrite Hset.
  by apply call_with_falsy_url.
Qed.

Lemma empty_url_is_absent_witness :
  __call__ (H := sample_constants) no_kwargs
    (set_url (H := sample_constants) "" VNone (fresh_transport, quiet_world)).2
  = (Raise (AttributeError "Absent url parameter. Use set_url method"),
     (with_url (VStr "") fresh_transport, quiet_world)).
Proof.
  apply (proj2 (empty_url_is_absent (H := sample_constants) no_kwargs
                  fresh_transport quiet_world eq_refl eq_refl)).
Defined.

End CallKeywords.

(** ** [prepare_api_url] and other directives *)

Lemma render_cons (p : piece) (ps : list piece) :
  render (p :: ps) = render_piece p +:+ render ps.
Proof. reflexivity. Qed.

(** A template of text and placeholders, followed by anything. *)
Lemma py_format_template_then (ps : list piece) (rest lang : string)
    (mapping : gmap string string) :
  mapping !! "language" = Some lang ->
  forallb plain ps = true ->
  py_format_from Text (render ps +:+ rest) mapping
  = prepend (subst_language lang ps) (py_format_from Text rest mapping).
Proof.
  intros Hlang. induction ps as [|p ps IH]; intros Hplain.
  - by rewrite prepend_empty.
  - simpl in Hplain. apply andb_prop in Hplain as [Hp Hps].
    rewrite render_cons, <- append_assoc.
    destruct p as [text|]; simpl in Hp; unfold render_piece.
    + rewrite py_format_text, IH by done. by rewrite prepend_prepend.
    + rewrite (py_format_placeholder _ lang), IH by done. by rewrite prepend_prepend.
Qed.

(** A key without parentheses is read up to its closing parenthesis and
    looked up at once. *)
Lemma py_format_key (key rest acc : string) (mapping : gmap string string) :
  paren_free key = true ->
  py_format_from (InKey 0 acc) (key +:+ ")" +:+ rest) mapping
  = match mapping !! (acc +:+ key) with
    | None => Raise (KeyError (acc +:+ key))
    | Some v => py_format_from (Conv v) rest mapping
    end.
Proof.
  revert acc. induction key as [|c key IH]; intros acc Hfree.
  - rewrite append_empty, append_cons, append_empty. simpl.
    replace (acc +:+ "") with acc; [reflexivity|].
    clear. induction acc as [|a acc IH]; [reflexivity|].
    by rewrite append_cons, <- IH.
  - simpl in Hfree. apply andb_prop in Hfree as [Hc Hfree].
    apply andb_prop in Hc as [Hopen Hclose].
    apply negb_true_iff in Hopen. apply negb_true_iff in Hclose.
    rewrite append_cons. simpl. rewrite Hopen, Hclose.
    rewrite IH by done.
    by rewrite <- append_assoc, append_cons, append_empty.
Qed.

(** X5.  [prepare_api_url] supplies the ["language"] key only: a template
    of text and ["%(language)s"] placeholders followed by a directive with
    any other key, such as ["%(id)s"], raises [KeyError] for that key,
    whatever the language and whatever follows the key. *)
Theorem prepare_api_url_other_key `{Constants} (ps : list piece)
    (key rest : string) (language : value) :
  forallb plain ps = true ->
  paren_free key = true ->
  key <> "language" ->
  prepare_api_url (render ps +:+ "%(" +:+ key +:+ ")" +:+ rest) language
  = Raise (KeyError key).
Proof.
  intros Hplain Hfree Hkey. unfold prepare_api_url, py_format.
  rewrite (py_format_template_then ps _ _ _ (lookup_singleton_eq _ _) Hplain).
  rewrite !append_cons, append_empty. simpl.
  rewrite (py_format_key key rest "" _ Hfree), append_empty.
  rewrite lookup_singleton_ne by done. reflexivity.
Qed.

Lemma prepare_api_url_other_key_witness :
  prepare_api_url (H := sample_constants) single_url_template (VStr "en")
  = Raise (KeyError "id").
Proof.
  apply (prepare_api_url_other_key (H := sample_constants)
           [Lit "https://api.admitad.com/"; Lang; Lit "/announcements/"]
           "id" "s/" (VStr "en") eq_refl eq_refl).
  discriminate.
Defined.
